(** * nsd_gtls: the GnuTLS network stream driver of rsyslog

    A shallow embedding of [runtime/nsd_gtls.c] and the properties of
    its driver interface.  GnuTLS, the plain-tcp driver [nsd_ptcp] and
    the error logger are external collaborators: every call into them is
    recorded in a trace and answered by an [environment]. *)

From Stdlib Require Import ZArith NArith List Bool Lia.
From Stdlib.Strings Require Import String Ascii Byte.
Import ListNotations.

Local Open Scope Z_scope.

(** ** Return codes *)

(** The [rsRetVal] codes this file produces, and [RS_RET_ERR] for any
    other code of rsyslog.h handed up by a collaborator. *)
Inductive rsRetVal : Type :=
| RS_RET_OK
| RS_RET_GNUTLS_ERR
| RS_RET_TLS_CERT_ERR
| RS_RET_TLS_NO_CERT
| RS_RET_INVALID_FINGERPRINT
| RS_RET_INVALID_DRVR_MODE
| RS_RET_VALUE_NOT_SUPPORTED
| RS_RET_VALUE_NOT_IN_THIS_MODE
| RS_RET_TLS_HANDSHAKE_ERR
| RS_RET_CONNECTION_ABORTREQ
| RS_RET_OUT_OF_MEMORY
| RS_RET_ERR (code : Z).

(** ** Control flow of a C function body

    A statement either falls through with a value, jumps to the
    [finalize_it] label with [iRet] set, returns at once, or is still
    spinning in a retry loop when the fuel of the model is used up. *)
Inductive outcome (A : Type) : Type :=
| Val (a : A)
| Goto_finalize (iRet : rsRetVal)
| Return_now (iRet : rsRetVal)
| Spin.
Arguments Val {A} a.
Arguments Goto_finalize {A} iRet.
Arguments Return_now {A} iRet.
Arguments Spin {A}.

(** What the caller of a C function sees. *)
Inductive result : Type :=
| Done (iRet : rsRetVal)
| Spinning.

Definition M (S A : Type) : Type := S -> outcome A * S.

Definition ret {S A : Type} (a : A) : M S A := fun s => (Val a, s).

Definition bind {S A B : Type} (m : M S A) (k : A -> M S B) : M S B :=
  fun s =>
    match m s with
    | (Val a, s') => k a s'
    | (Goto_finalize r, s') => (Goto_finalize r, s')
    | (Return_now r, s') => (Return_now r, s')
    | (Spin, s') => (Spin, s')
    end.

Declare Scope c_scope.
Delimit Scope c_scope with C.
Notation "x <- c1 ;; c2" := (bind c1 (fun x => c2))
  (at level 61, c1 at next level, right associativity) : c_scope.
Notation "c1 ;; c2" := (bind c1 (fun _ => c2))
  (at level 61, right associativity) : c_scope.
Local Open Scope c_scope.

Definition gets {S A : Type} (f : S -> A) : M S A := fun s => (Val (f s), s).
Definition modify {S : Type} (f : S -> S) : M S unit := fun s => (Val tt, f s).

(** [FINALIZE], [ABORT_FINALIZE(code)] and [return code]. *)
Definition FINALIZE {S A : Type} : M S A := fun s => (Goto_finalize RS_RET_OK, s).
Definition ABORT_FINALIZE {S A : Type} (code : rsRetVal) : M S A :=
  fun s => (Goto_finalize code, s).
Definition RETURN {S A : Type} (code : rsRetVal) : M S A :=
  fun s => (Return_now code, s).

(** [CHKiRet(x)]: [if((iRet = x) != RS_RET_OK) goto finalize_it]. *)
Definition CHKiRet {S : Type} (x : M S rsRetVal) : M S unit :=
  r <- x ;;
  match r with
  | RS_RET_OK => ret tt
  | _ => ABORT_FINALIZE r
  end.

(** [CHKgnutls(x)]: any non-zero GnuTLS result aborts with
    [RS_RET_GNUTLS_ERR]. *)
Definition CHKgnutls {S : Type} (x : M S Z) : M S unit :=
  gnuRet <- x ;;
  if gnuRet =? 0 then ret tt else ABORT_FINALIZE RS_RET_GNUTLS_ERR.

(** A function: [DEFiRet], the body, the code after [finalize_it:], and
    [RETiRet].  The cleanup code of this file never changes [iRet]. *)
Definition c_function {S : Type} (body : M S unit)
    (finalize_it : rsRetVal -> M S unit) : S -> result * S :=
  fun s =>
    let after (iRet : rsRetVal) (s1 : S) :=
      match finalize_it iRet s1 with
      | (Spin, s2) => (Spinning, s2)
      | (_, s2) => (Done iRet, s2)
      end in
    match body s with
    | (Val _, s1) => after RS_RET_OK s1
    | (Goto_finalize r, s1) => after r s1
    | (Return_now r, s1) => (Done r, s1)
    | (Spin, s1) => (Spinning, s1)
    end.

(** Calling a C function from inside another body. *)
Definition invoke {S : Type} (f : S -> result * S) : M S rsRetVal :=
  fun s =>
    match f s with
    | (Done r, s') => (Val r, s')
    | (Spinning, s') => (Spin, s')
    end.

(** [for(i = 0 ; i < size ; ++i) body(p[i])] over a buffer of [size]
    elements. *)
Fixpoint for_each {S A : Type} (p : list A) (body : A -> M S unit) : M S unit :=
  match p with
  | [] => ret tt
  | x :: rest => body x ;; for_each rest body
  end.

(** ** Counted strings (stringbuf) and the fingerprint string *)

(** Modelled from the spec: stringbuf.c (the [cstr_t] operations
    rsCStrConstruct, rsCStrAppendChar, rsCStrAppendStrWithLen,
    rsCStrFinish and rsCStrSzStrCmp) is not part of the sources at hand.
    A counted string is the sequence of its characters; building one
    appends characters; memory allocation is taken to succeed; and the
    comparison with a C string is the exact, case-sensitive equality the
    specification describes: zero exactly when both hold the same
    characters. *)
Abbreviation cstr_t := string (only parsing).

(** Modelled from the spec: rsCStrConstruct of stringbuf.c, absent
    here; a new counted string is empty. *)
Definition rsCStrConstruct : rsRetVal * cstr_t := (RS_RET_OK, EmptyString).

(** Modelled from the spec: rsCStrAppendChar of stringbuf.c, absent
    here; one character is added at the end. *)
Definition rsCStrAppendChar (pThis : cstr_t) (c : ascii) : rsRetVal * cstr_t :=
  (RS_RET_OK, pThis ++ String c EmptyString)%string.

(** Modelled from the spec: rsCStrAppendStrWithLen of stringbuf.c,
    absent here; the first [iStrLen] characters of [psz] are added at
    the end. *)
Definition rsCStrAppendStrWithLen (pThis : cstr_t) (psz : string) (iStrLen : nat)
  : rsRetVal * cstr_t :=
  (RS_RET_OK, pThis ++ substring 0 iStrLen psz)%string.

(** Modelled from the spec: rsCStrFinish of stringbuf.c, absent here;
    the string keeps its characters. *)
Definition rsCStrFinish (pThis : cstr_t) : rsRetVal * cstr_t := (RS_RET_OK, pThis).

(** Modelled from the spec: rsCStrSzStrCmp of stringbuf.c, absent
    here; the specification has the fingerprint compared for exact,
    case-sensitive equality, so the result is 0 exactly when the counted
    string and the C string hold the same characters.  The length
    argument, always [strlen] of the C string, is left out. *)
Definition rsCStrSzStrCmp (pCS1 : cstr_t) (psz : string) : Z :=
  if String.eqb pCS1 psz then 0 else 1.

(** One hexadecimal digit as printf's [%X] writes it. *)
Definition hex_digit_upper (n : N) : ascii :=
  match n with
  | 0%N => "0" | 1%N => "1" | 2%N => "2" | 3%N => "3"
  | 4%N => "4" | 5%N => "5" | 6%N => "6" | 7%N => "7"
  | 8%N => "8" | 9%N => "9" | 10%N => "A" | 11%N => "B"
  | 12%N => "C" | 13%N => "D" | 14%N => "E" | _ => "F"
  end%char.

(** [snprintf(buf, sizeof(buf), "%2.2X", b)] for an [uchar] b: at least
    two digits, zero padded, and a byte never needs more than two. *)
Definition snprintf_2_2X (b : byte) : string :=
  let n := Byte.to_N b in
  String (hex_digit_upper (n / 16)) (String (hex_digit_upper (n mod 16)) EmptyString).

(** The local variables of [GenFingerprintStr] that outlive a jump. *)
Record GenFingerprintStr_frame : Type := mkGenFrame {
  gf_pStr : option cstr_t;
  gf_bAddColon : Z;
  gf_ppStr : option cstr_t
}.

(** A stringbuf operation applied to the local [pStr]. *)
Definition on_pStr (op : cstr_t -> rsRetVal * cstr_t) : M GenFingerprintStr_frame rsRetVal :=
  fun f =>
    match gf_pStr f with
    | Some s =>
        let (r, s') := op s in
        (Val r, mkGenFrame (Some s') (gf_bAddColon f) (gf_ppStr f))
    | None => (Val RS_RET_OUT_OF_MEMORY, f)
    end.

(** One turn of the [for] loop, on the byte [pFingerprint[i]]. *)
Definition GenFingerprintStr_step (b : byte) : M GenFingerprintStr_frame unit :=
  bAddColon <- gets gf_bAddColon ;;
  (if negb (bAddColon =? 0)
   then CHKiRet (on_pStr (fun s => rsCStrAppendChar s ":"%char))
   else modify (fun f => mkGenFrame (gf_pStr f) 1 (gf_ppStr f))) ;;
  let buf := snprintf_2_2X b in
  CHKiRet (on_pStr (fun s => rsCStrAppendStrWithLen s buf 2)).

Definition GenFingerprintStr_body (pFingerprint : list byte)
  : M GenFingerprintStr_frame unit :=
  CHKiRet (fun f => let (r, s) := rsCStrConstruct in
                    (Val r, mkGenFrame (Some s) (gf_bAddColon f) (gf_ppStr f))) ;;
  for_each pFingerprint GenFingerprintStr_step ;;
  CHKiRet (on_pStr rsCStrFinish) ;;
  modify (fun f => mkGenFrame (gf_pStr f) (gf_bAddColon f) (gf_pStr f)).

Definition GenFingerprintStr_finalize (iRet : rsRetVal)
  : M GenFingerprintStr_frame unit :=
  match iRet with
  | RS_RET_OK => ret tt
  | _ => modify (fun f => mkGenFrame None (gf_bAddColon f) (gf_ppStr f))
  end.

(** [GenFingerprintStr(pFingerprint, sizeFingerprint, ppStr)]: the
    buffer is given as the list of its [sizeFingerprint] bytes; the
    result is [iRet] and what [*ppStr] holds. *)
Definition GenFingerprintStr (pFingerprint : list byte) : result * option cstr_t :=
  let (r, f) := c_function (GenFingerprintStr_body pFingerprint)
                           GenFingerprintStr_finalize
                           (mkGenFrame None 0 None) in
  (r, gf_ppStr f).

(** ** The collaborators: GnuTLS, nsd_ptcp, errmsg *)

(** Handles of objects owned by a collaborator.  A handle is named by
    the time of the call that created it. *)
Definition gnutls_session : Type := nat.
Definition gnutls_x509_crt : Type := nat.
Definition nsd_ptcp_t : Type := nat.
Definition gnutls_datum : Type := list byte.

(** Constants of gnutls.h that the driver names, and [DH_BITS]. *)
Definition GNUTLS_E_AGAIN : Z := -28.
Definition GNUTLS_E_INTERRUPTED : Z := -52.
Definition GNUTLS_CRT_X509 : Z := 1.
Definition GNUTLS_SERVER : Z := 1.
Definition GNUTLS_CLIENT : Z := 2.
Definition DH_BITS : Z := 1024.

Inductive log_arg : Type :=
| NoArg
| IntArg (n : Z)
| StrArg (s : string).

(** Every call that leaves this file.  Buffers are abstracted to their
    length, the credentials [xcred] and [dh_params] to the calls made on
    them. *)
Inductive call : Type :=
| gnutls_certificate_set_x509_key_file
| gnutls_init (flags : Z)
| gnutls_set_default_priority (s : gnutls_session)
| gnutls_credentials_set (s : gnutls_session)
| gnutls_certificate_server_set_request (s : gnutls_session)
| gnutls_dh_set_prime_bits (s : gnutls_session) (bits : Z)
| gnutls_dh_params_init
| gnutls_dh_params_generate2 (bits : Z)
| gnutls_certificate_set_dh_params
| gnutls_certificate_type_get (s : gnutls_session)
| gnutls_certificate_get_peers (s : gnutls_session)
| gnutls_x509_crt_init
| gnutls_x509_crt_import (c : gnutls_x509_crt) (der : gnutls_datum)
| gnutls_x509_crt_get_fingerprint (c : gnutls_x509_crt)
| gnutls_x509_crt_deinit (c : gnutls_x509_crt)
| gnutls_bye (s : gnutls_session)
| gnutls_deinit (s : gnutls_session)
| gnutls_transport_set_ptr (s : gnutls_session) (sock : Z)
| gnutls_certificate_type_set_priority (s : gnutls_session)
| gnutls_handshake (s : gnutls_session)
| gnutls_record_recv (s : gnutls_session) (len : Z)
| gnutls_record_send (s : gnutls_session) (len : Z)
| gnutls_perror (e : Z)
| nsd_ptcp_Construct
| nsd_ptcp_Destruct (t : option nsd_ptcp_t)
| nsd_ptcp_Abort (t : option nsd_ptcp_t)
| nsd_ptcp_LstnInit (pLstnPort pLstnIP : string) (iSessMax : Z)
| nsd_ptcp_AcceptConnReq (t : option nsd_ptcp_t)
| nsd_ptcp_Rcv (t : option nsd_ptcp_t) (len : Z)
| nsd_ptcp_Send (t : option nsd_ptcp_t) (len : Z)
| nsd_ptcp_Connect (t : option nsd_ptcp_t) (family : Z) (port host : string)
| nsd_ptcp_GetSock (t : option nsd_ptcp_t)
| errmsg_LogError (fmt : string) (arg : log_arg).

(** The answers of the collaborators.  An answer may depend on the call
    and on the time it is made at, so that a retried call can be
    answered differently. *)
Record environment : Type := mkEnv {
  gnutls_ret : call -> nat -> Z;
  ptcp_ret : call -> nat -> rsRetVal;
  ptcp_out : call -> nat -> Z;
  peer_certs : call -> nat -> list gnutls_datum;
  x509_fingerprint : gnutls_datum -> list byte;
  ptcp_sock : nsd_ptcp_t -> Z
}.

(** The process-wide state: the calls made so far and the static
    [bGlblSrvrInitDone]. *)
Record world : Type := mkWorld {
  clock : nat;
  trace : list call;
  bGlblSrvrInitDone : Z
}.

(** ** The driver object *)

Inductive authMode_t : Type :=
| GTLS_AUTH_CERTNAME
| GTLS_AUTH_CERTFINGERPRINT
| GTLS_AUTH_CERTANON.

Inductive gtlsRtryCall_t : Type :=
| gtlsRtry_None
| gtlsRtry_handshake.

(** A [permittedPeers_t] list: the [pszID] of each node, in [pNext]
    order; the NULL pointer is the empty list. *)
Definition permittedPeers_t : Type := list string.

Record nsd_gtls_t : Type := mk_nsd_gtls {
  pTcp : option nsd_ptcp_t;
  iMode : Z;
  bAbortConn : Z;
  authMode : authMode_t;
  rtryCall : gtlsRtryCall_t;
  bIsInitiator : Z;
  sess : gnutls_session;
  bHaveSess : Z;
  bReportAuthErr : Z;
  pPermPeers : permittedPeers_t
}.

Definition set_pTcp (v : option nsd_ptcp_t) (o : nsd_gtls_t) : nsd_gtls_t :=
  mk_nsd_gtls v (iMode o) (bAbortConn o) (authMode o) (rtryCall o)
    (bIsInitiator o) (sess o) (bHaveSess o) (bReportAuthErr o) (pPermPeers o).
Definition set_iMode (v : Z) (o : nsd_gtls_t) : nsd_gtls_t :=
  mk_nsd_gtls (pTcp o) v (bAbortConn o) (authMode o) (rtryCall o)
    (bIsInitiator o) (sess o) (bHaveSess o) (bReportAuthErr o) (pPermPeers o).
Definition set_authMode (v : authMode_t) (o : nsd_gtls_t) : nsd_gtls_t :=
  mk_nsd_gtls (pTcp o) (iMode o) (bAbortConn o) v (rtryCall o)
    (bIsInitiator o) (sess o) (bHaveSess o) (bReportAuthErr o) (pPermPeers o).
Definition set_rtryCall (v : gtlsRtryCall_t) (o : nsd_gtls_t) : nsd_gtls_t :=
  mk_nsd_gtls (pTcp o) (iMode o) (bAbortConn o) (authMode o) v
    (bIsInitiator o) (sess o) (bHaveSess o) (bReportAuthErr o) (pPermPeers o).
Definition set_bIsInitiator (v : Z) (o : nsd_gtls_t) : nsd_gtls_t :=
  mk_nsd_gtls (pTcp o) (iMode o) (bAbortConn o) (authMode o) (rtryCall o)
    v (sess o) (bHaveSess o) (bReportAuthErr o) (pPermPeers o).
Definition set_sess (v : gnutls_session) (o : nsd_gtls_t) : nsd_gtls_t :=
  mk_nsd_gtls (pTcp o) (iMode o) (bAbortConn o) (authMode o) (rtryCall o)
    (bIsInitiator o) v (bHaveSess o) (bReportAuthErr o) (pPermPeers o).
Definition set_bHaveSess (v : Z) (o : nsd_gtls_t) : nsd_gtls_t :=
  mk_nsd_gtls (pTcp o) (iMode o) (bAbortConn o) (authMode o) (rtryCall o)
    (bIsInitiator o) (sess o) v (bReportAuthErr o) (pPermPeers o).
Definition set_bReportAuthErr (v : Z) (o : nsd_gtls_t) : nsd_gtls_t :=
  mk_nsd_gtls (pTcp o) (iMode o) (bAbortConn o) (authMode o) (rtryCall o)
    (bIsInitiator o) (sess o) (bHaveSess o) v (pPermPeers o).
Definition set_pPermPeers (v : permittedPeers_t) (o : nsd_gtls_t) : nsd_gtls_t :=
  mk_nsd_gtls (pTcp o) (iMode o) (bAbortConn o) (authMode o) (rtryCall o)
    (bIsInitiator o) (sess o) (bHaveSess o) (bReportAuthErr o) v.

(** Modelled from the spec: the constructor macro (obj.h) and the
    declaration of the object (nsd_gtls.h) are not part of the sources
    at hand.  The object is allocated zero-filled; the zero of
    [authMode] is the default the specification names, x509/name, and
    the zero of [rtryCall] is "nothing to retry". *)
Definition nsd_gtls_calloc : nsd_gtls_t :=
  mk_nsd_gtls None 0 0 GTLS_AUTH_CERTNAME gtlsRtry_None 0 0%nat 0 0 [].

(** ** Primitive statements *)

Definition tick (c : call) (w : world) : world :=
  mkWorld (S (clock w)) (trace w ++ [c]) (bGlblSrvrInitDone w).

(** Make the call [c]; the value is the time it was made at. *)
Definition extern {L : Type} (c : call) : M (L * world) nat :=
  fun s => (Val (clock (snd s)), (fst s, tick c (snd s))).

(** Read and write the locals of the running function. *)
Definition local {L A : Type} (f : L -> A) : M (L * world) A :=
  fun s => (Val (f (fst s)), s).
Definition assign {L : Type} (f : L -> L) : M (L * world) unit :=
  fun s => (Val tt, (f (fst s), snd s)).

(** Call a function of the process-wide state. *)
Definition invoke_global {L : Type} (f : world -> result * world)
  : M (L * world) rsRetVal :=
  fun s =>
    match f (snd s) with
    | (Done r, w') => (Val r, (fst s, w'))
    | (Spinning, w') => (Spin, (fst s, w'))
    end.

(** ASCII case folding and libc's [strcasecmp], as far as the driver
    uses it: zero exactly when the strings agree up to case. *)
Definition tolower (c : ascii) : ascii :=
  let n := N_of_ascii c in
  if ((65 <=? n) && (n <=? 90))%N then ascii_of_N (n + 32) else c.

Fixpoint strlower (s : string) : string :=
  match s with
  | EmptyString => EmptyString
  | String c rest => String (tolower c) (strlower rest)
  end.

Definition strcasecmp (a b : string) : Z :=
  if String.eqb (strlower a) (strlower b) then 0 else 1.

(** The search loop of [gtlsChkFingerprint]:
    [while(pPeer != NULL && !bFoundPositiveMatch)].  The value is
    [bFoundPositiveMatch] and [pPeer] when the loop is left. *)
Fixpoint search_permitted_peers (pstrFingerprint : cstr_t) (pPeer : permittedPeers_t)
  : Z * permittedPeers_t :=
  match pPeer with
  | [] => (0, [])
  | pszID :: pNext =>
      if rsCStrSzStrCmp pstrFingerprint pszID =? 0
      then (1, pPeer)
      else search_permitted_peers pstrFingerprint pNext
  end.

(** What a constructor of the transport driver stores through its out
    parameter: the new object when it succeeds, otherwise nothing. *)
Definition stored_if_ok (r : rsRetVal) (t : nsd_ptcp_t) : option nsd_ptcp_t :=
  match r with
  | RS_RET_OK => Some t
  | _ => None
  end.

(** Locals of [gtlsChkFingerprint] that its cleanup code reads. *)
Record chk_frame : Type := mkChk {
  chk_this : nsd_gtls_t;
  bMustDeinitCert : Z;
  cert : gnutls_x509_crt
}.

(** [Rcv] and [Send]: the object and the in/out length [*pLenBuf]. *)
Record io_frame : Type := mkIo {
  io_this : nsd_gtls_t;
  pLenBuf : Z
}.

(** [AcceptConnReq]: the local [pNew] and the out parameter [*ppNew]. *)
Record accept_frame : Type := mkAccept {
  pNew : option nsd_gtls_t;
  ppNew : option nsd_gtls_t
}.

Section Driver.

Variable env : environment.

Definition gnutls {L : Type} (c : call) : M (L * world) Z :=
  t <- extern c ;; ret (gnutls_ret env c t).

Definition gnutls_void {L : Type} (c : call) : M (L * world) unit :=
  _ <- extern c ;; ret tt.

Definition nsd_ptcp {L : Type} (c : call) : M (L * world) rsRetVal :=
  t <- extern c ;; ret (ptcp_ret env c t).

Definition LogError {L : Type} (fmt : string) (arg : log_arg) : M (L * world) unit :=
  _ <- extern (errmsg_LogError fmt arg) ;; ret tt.

(** *** GnuTLS specifics *)

(** [gtlsAddOurCert]: the file names come from the global
    configuration and are not modelled. *)
Definition gtlsAddOurCert : world -> result * world :=
  fun w =>
    let (r, s) :=
      c_function (S := unit * world)
        (CHKgnutls (gnutls gnutls_certificate_set_x509_key_file))
        (fun _ => ret tt) (tt, w) in
    (r, snd s).

(** [gtlsInitSession]: the result of [gnutls_init] is not tested; the
    handle reaches [pThis->sess] only at the very end. *)
Definition gtlsInitSession : nsd_gtls_t * world -> result * (nsd_gtls_t * world) :=
  c_function
    (session <- extern (gnutls_init GNUTLS_SERVER) ;;
     assign (set_bHaveSess 1) ;;
     assign (set_bIsInitiator 0) ;;
     CHKgnutls (gnutls (gnutls_set_default_priority session)) ;;
     CHKgnutls (gnutls (gnutls_credentials_set session)) ;;
     gnutls_void (gnutls_certificate_server_set_request session) ;;
     gnutls_void (gnutls_dh_set_prime_bits session DH_BITS) ;;
     assign (set_sess session))
    (fun _ => ret tt).

Definition generate_dh_params : world -> result * world :=
  fun w =>
    let (r, s) :=
      c_function (S := unit * world)
        (CHKgnutls (gnutls gnutls_dh_params_init) ;;
         CHKgnutls (gnutls (gnutls_dh_params_generate2 DH_BITS)))
        (fun _ => ret tt) (tt, w) in
    (r, snd s).

(** [gtlsGlblInitLstn]: the flag is set after the parameters were
    generated and installed. *)
Definition gtlsGlblInitLstn : world -> result * world :=
  fun w =>
    let (r, s) :=
      c_function (S := unit * world)
        (done <- gets (fun s => bGlblSrvrInitDone (snd s)) ;;
         if done =? 0 then
           CHKiRet (invoke_global generate_dh_params) ;;
           gnutls_void gnutls_certificate_set_dh_params ;;
           modify (fun s => (fst s, mkWorld (clock (snd s)) (trace (snd s)) 1))
         else ret tt)
        (fun _ => ret tt) (tt, w) in
    (r, snd s).

Definition authMode_is_fingerprint (m : authMode_t) : bool :=
  match m with
  | GTLS_AUTH_CERTFINGERPRINT => true
  | _ => false
  end.

(** The body of [gtlsChkFingerprint].  [cert_list[0]] is the first
    element of what [gnutls_certificate_get_peers] returns, and
    [fingerprint], [size] are the bytes that
    [gnutls_x509_crt_get_fingerprint] stores for it. *)
Definition gtlsChkFingerprint_body : M (chk_frame * world) unit :=
  pThis <- local chk_this ;;
  if negb (authMode_is_fingerprint (authMode pThis)) then FINALIZE else
  crt_type <- gnutls (gnutls_certificate_type_get (sess pThis)) ;;
  if negb (crt_type =? GNUTLS_CRT_X509) then RETURN RS_RET_TLS_CERT_ERR else
  t <- extern (gnutls_certificate_get_peers (sess pThis)) ;;
  match peer_certs env (gnutls_certificate_get_peers (sess pThis)) t with
  | [] => ABORT_FINALIZE RS_RET_TLS_NO_CERT
  | cert_list_0 :: _ =>
      CHKgnutls (c <- extern gnutls_x509_crt_init ;;
                 assign (fun f => mkChk (chk_this f) (bMustDeinitCert f) c) ;;
                 ret (gnutls_ret env gnutls_x509_crt_init c)) ;;
      assign (fun f => mkChk (chk_this f) 1 (cert f)) ;;
      c <- local cert ;;
      CHKgnutls (gnutls (gnutls_x509_crt_import c cert_list_0)) ;;
      CHKgnutls (gnutls (gnutls_x509_crt_get_fingerprint c)) ;;
      let fingerprint := x509_fingerprint env cert_list_0 in
      match GenFingerprintStr fingerprint with
      | (Done RS_RET_OK, Some pstrFingerprint) =>
          let (bFoundPositiveMatch, _) :=
            search_permitted_peers pstrFingerprint (pPermPeers pThis) in
          if bFoundPositiveMatch =? 0 then
            (if bReportAuthErr pThis =? 1 then
               LogError "error: peer fingerprint '%s' unknown - we are not permitted to talk to it"
                        (StrArg pstrFingerprint) ;;
               assign (fun f => mkChk (set_bReportAuthErr 0 (chk_this f))
                                      (bMustDeinitCert f) (cert f))
             else ret tt) ;;
            ABORT_FINALIZE RS_RET_INVALID_FINGERPRINT
          else ret tt
      | (Done r, _) => ABORT_FINALIZE r
      | (Spinning, _) => fun s => (Spin, s)
      end
  end.

(** After [finalize_it]: the fingerprint string is freed, which no one
    can observe, and the certificate is given back when it was
    initialised. *)
Definition gtlsChkFingerprint_finalize (iRet : rsRetVal) : M (chk_frame * world) unit :=
  must <- local bMustDeinitCert ;;
  if negb (must =? 0) then
    c <- local cert ;; gnutls_void (gnutls_x509_crt_deinit c)
  else ret tt.

Definition gtlsChkFingerprint : nsd_gtls_t * world -> result * (nsd_gtls_t * world) :=
  fun s =>
    let (r, s') := c_function gtlsChkFingerprint_body gtlsChkFingerprint_finalize
                     (mkChk (fst s) 0 0%nat, snd s) in
    (r, (chk_this (fst s'), snd s')).

(** The [gnutls_bye] retry loop of [gtlsEndSess]. *)
Fixpoint gtlsEndSess_bye (fuel : nat) (s : gnutls_session) : M (nsd_gtls_t * world) unit :=
  match fuel with
  | O => fun st => (Spin, st)
  | S fuel' =>
      gnuRet <- gnutls (gnutls_bye s) ;;
      if (gnuRet =? GNUTLS_E_INTERRUPTED) || (gnuRet =? GNUTLS_E_AGAIN)
      then gtlsEndSess_bye fuel' s
      else ret tt
  end.

(** [gtlsEndSess]: ends the session only if there is one. *)
Definition gtlsEndSess (fuel : nat) : nsd_gtls_t * world -> result * (nsd_gtls_t * world) :=
  c_function
    (pThis <- local (fun o : nsd_gtls_t => o) ;;
     if negb (bHaveSess pThis =? 0) then
       (if negb (bIsInitiator pThis =? 0)
        then gtlsEndSess_bye fuel (sess pThis)
        else ret tt) ;;
       gnutls_void (gnutls_deinit (sess pThis))
     else ret tt)
    (fun _ => ret tt).

Definition gtlsSetTransportPtr (sock : Z) : M (nsd_gtls_t * world) unit :=
  pThis <- local (fun o : nsd_gtls_t => o) ;;
  gnutls_void (gnutls_transport_set_ptr (sess pThis) sock).

(** *** Constructor and destructor *)

(** The object's initializer, the code between [BEGINobjConstruct] and
    [ENDobjConstruct].  The result of [nsd_ptcp.Construct] is stored in
    [iRet] without a test and then overwritten by the [CHKiRet] that
    follows. *)
Definition nsd_gtlsInitialize : nsd_gtls_t * world -> result * (nsd_gtls_t * world) :=
  c_function
    (t <- extern nsd_ptcp_Construct ;;
     assign (set_pTcp (stored_if_ok (ptcp_ret env nsd_ptcp_Construct t) t)) ;;
     assign (set_bReportAuthErr 1) ;;
     CHKiRet (invoke_global gtlsAddOurCert))
    (fun _ => ret tt).

(** Modelled from the spec: the constructor macro is not part of the
    sources at hand.  As in rsyslog's object system, it
    allocates the zero-filled object, runs the initializer on it
    without looking at the initializer's result, and hands the object
    back with [RS_RET_OK]; the allocation is taken to succeed. *)
Definition nsd_gtlsConstruct : world -> result * (nsd_gtls_t * world) :=
  fun w =>
    let (r, s) := nsd_gtlsInitialize (nsd_gtls_calloc, w) in
    (match r with
     | Done _ => Done RS_RET_OK
     | Spinning => Spinning
     end, s).

(** The destructor; the macro frees the object afterwards. *)
Definition nsd_gtlsDestruct (fuel : nat)
  : nsd_gtls_t * world -> result * (nsd_gtls_t * world) :=
  c_function
    (pThis <- local (fun o : nsd_gtls_t => o) ;;
     (if iMode pThis =? 1
      then _ <- invoke (gtlsEndSess fuel) ;; ret tt
      else ret tt) ;;
     match pTcp pThis with
     | Some _ =>
         _ <- nsd_ptcp (nsd_ptcp_Destruct (pTcp pThis)) ;;
         assign (set_pTcp None)
     | None => ret tt
     end)
    (fun _ => ret tt).

(** *** The driver interface *)

(** [SetMode(pNsd, mode)]. *)
Definition SetMode (mode : Z) : nsd_gtls_t * world -> result * (nsd_gtls_t * world) :=
  c_function
    ((if negb (mode =? 0) && negb (mode =? 1) then
        LogError "error: driver mode %d not supported by gtls netstream driver"
                 (IntArg mode) ;;
        ABORT_FINALIZE RS_RET_INVALID_DRVR_MODE
      else ret tt) ;;
     assign (set_iMode mode))
    (fun _ => ret tt).

(** [SetAuthMode(pNsd, mode)]; [mode == NULL] is [None]. *)
Definition SetAuthMode (mode : option string)
  : nsd_gtls_t * world -> result * (nsd_gtls_t * world) :=
  c_function
    (match mode with
     | None => assign (set_authMode GTLS_AUTH_CERTNAME)
     | Some m =>
         if strcasecmp m "x509/name" =? 0 then
           assign (set_authMode GTLS_AUTH_CERTNAME)
         else if strcasecmp m "x509/fingerprint" =? 0 then
           assign (set_authMode GTLS_AUTH_CERTFINGERPRINT)
         else if strcasecmp m "anon" =? 0 then
           assign (set_authMode GTLS_AUTH_CERTANON)
         else
           LogError "error: authentication mode '%s' not supported by gtls netstream driver"
                    (StrArg m) ;;
           ABORT_FINALIZE RS_RET_VALUE_NOT_SUPPORTED
     end)
    (fun _ => ret tt).

Definition authMode_takes_peers (m : authMode_t) : bool :=
  match m with
  | GTLS_AUTH_CERTFINGERPRINT | GTLS_AUTH_CERTNAME => true
  | GTLS_AUTH_CERTANON => false
  end.

(** [SetPermPeers(pNsd, pPermPeers)]; the NULL pointer is the empty
    list. *)
Definition SetPermPeers (pPermPeers' : permittedPeers_t)
  : nsd_gtls_t * world -> result * (nsd_gtls_t * world) :=
  c_function
    (match pPermPeers' with
     | [] => FINALIZE
     | _ :: _ =>
         pThis <- local (fun o : nsd_gtls_t => o) ;;
         (if negb (authMode_takes_peers (authMode pThis)) then
            LogError "authentication not supported by gtls netstream driver in the configured authentication mode - ignored"
                     NoArg ;;
            ABORT_FINALIZE RS_RET_VALUE_NOT_IN_THIS_MODE
          else ret tt) ;;
         assign (set_pPermPeers pPermPeers')
     end)
    (fun _ => ret tt).

(** [Abort(pNsd)]: the result of [nsd_ptcp.Abort] is dropped. *)
Definition Abort : nsd_gtls_t * world -> result * (nsd_gtls_t * world) :=
  c_function
    (pThis <- local (fun o : nsd_gtls_t => o) ;;
     if iMode pThis =? 0 then
       _ <- nsd_ptcp (nsd_ptcp_Abort (pTcp pThis)) ;; ret tt
     else ret tt)
    (fun _ => ret tt).

(** [LstnInit]: the last statement assigns [iRet] and falls through to
    [finalize_it]. *)
Definition LstnInit (pLstnPort pLstnIP : string) (iSessMax : Z)
  : world -> result * world :=
  fun w =>
    let (r, s) :=
      c_function (S := unit * world)
        (CHKiRet (invoke_global gtlsGlblInitLstn) ;;
         iRet <- nsd_ptcp (nsd_ptcp_LstnInit pLstnPort pLstnIP iSessMax) ;;
         ABORT_FINALIZE iRet)
        (fun _ => ret tt) (tt, w) in
    (r, snd s).

(** Run a statement on [*pNew].  [pNew] is NULL only when the
    constructor could not allocate, and then the first [CHKiRet] of
    [AcceptConnReq] has already left the body. *)
Definition on_pNew {A : Type} (m : M (nsd_gtls_t * world) A) : M (accept_frame * world) A :=
  fun s =>
    match pNew (fst s) with
    | Some o =>
        let (r, s') := m (o, snd s) in
        (r, (mkAccept (Some (fst s')) (ppNew (fst s)), snd s'))
    | None => (Goto_finalize RS_RET_OUT_OF_MEMORY, s)
    end.

Definition AcceptConnReq_body (pThis : nsd_gtls_t) : M (accept_frame * world) unit :=
  CHKiRet (fun s =>
             match nsd_gtlsConstruct (snd s) with
             | (Done r, (o, w')) => (Val r, (mkAccept (Some o) (ppNew (fst s)), w'))
             | (Spinning, (o, w')) => (Spin, (mkAccept (Some o) (ppNew (fst s)), w'))
             end) ;;
  CHKiRet (on_pNew (o <- local (fun o : nsd_gtls_t => o) ;;
                    r <- nsd_ptcp (nsd_ptcp_Destruct (pTcp o)) ;;
                    assign (set_pTcp None) ;;
                    ret r)) ;;
  CHKiRet (on_pNew (t <- extern (nsd_ptcp_AcceptConnReq (pTcp pThis)) ;;
                    match ptcp_ret env (nsd_ptcp_AcceptConnReq (pTcp pThis)) t with
                    | RS_RET_OK => assign (set_pTcp (Some t)) ;; ret RS_RET_OK
                    | r => ret r
                    end)) ;;
  if iMode pThis =? 0 then
    assign (fun f => mkAccept (pNew f) (pNew f)) ;;
    FINALIZE
  else
  CHKiRet (on_pNew (invoke gtlsInitSession)) ;;
  on_pNew (o <- local (fun o : nsd_gtls_t => o) ;;
           gtlsSetTransportPtr (match pTcp o with
                                | Some t => ptcp_sock env t
                                | None => 0
                                end)) ;;
  on_pNew (assign (set_authMode (authMode pThis))) ;;
  on_pNew (assign (set_pPermPeers (pPermPeers pThis))) ;;
  gnuRet <- on_pNew (o <- local (fun o : nsd_gtls_t => o) ;;
                     gnutls (gnutls_handshake (sess o))) ;;
  (if (gnuRet =? GNUTLS_E_AGAIN) || (gnuRet =? GNUTLS_E_INTERRUPTED) then
     on_pNew (assign (set_rtryCall gtlsRtry_handshake))
   else if negb (gnuRet =? 0) then
     ABORT_FINALIZE RS_RET_TLS_HANDSHAKE_ERR
   else ret tt) ;;
  on_pNew (assign (set_iMode 1)) ;;
  assign (fun f => mkAccept (pNew f) (pNew f)).

Definition AcceptConnReq_finalize (fuel : nat) (iRet : rsRetVal)
  : M (accept_frame * world) unit :=
  match iRet with
  | RS_RET_OK => ret tt
  | _ =>
      p <- local pNew ;;
      match p with
      | Some _ =>
          _ <- on_pNew (invoke (nsd_gtlsDestruct fuel)) ;;
          assign (fun f => mkAccept None (ppNew f))
      | None => ret tt
      end
  end.

(** [AcceptConnReq(pNsd, ppNew)]: the listener [pThis] is only read;
    the value is [iRet], [pNew] and [*ppNew], the latter [None] as long
    as nothing was stored through it. *)
Definition AcceptConnReq (fuel : nat) (pThis : nsd_gtls_t)
  : world -> result * (accept_frame * world) :=
  fun w =>
    c_function (AcceptConnReq_body pThis) (AcceptConnReq_finalize fuel)
      (mkAccept None None, w).

Definition set_pLenBuf (v : Z) (f : io_frame) : io_frame := mkIo (io_this f) v.

(** What an [int] variable holds after a wider integer was stored in
    it: the low 32 bits, read in two's complement.  [ssize_t] is the
    wider type here; [gnutls_record_recv] and [gnutls_record_send]
    return it. *)
Definition int_of (z : Z) : Z := (z + 2 ^ 31) mod 2 ^ 32 - 2 ^ 31.

(** A transport call that also stores through [pLenBuf]. *)
Definition nsd_ptcp_io (c : call) : M (io_frame * world) rsRetVal :=
  t <- extern c ;;
  assign (set_pLenBuf (ptcp_out env c t)) ;;
  ret (ptcp_ret env c t).

(** [Rcv(pNsd, pBuf, pLenBuf)]; of the buffer only the length is kept.
    [lenRcvd] is an [ssize_t]; the [CHKgnutls] on the error path stores
    it in its [int gnuRet] and tests that. *)
Definition Rcv : io_frame * world -> result * (io_frame * world) :=
  c_function
    (pThis <- local io_this ;;
     (if negb (bAbortConn pThis =? 0)
      then ABORT_FINALIZE RS_RET_CONNECTION_ABORTREQ else ret tt) ;;
     len <- local pLenBuf ;;
     if iMode pThis =? 0 then
       CHKiRet (nsd_ptcp_io (nsd_ptcp_Rcv (pTcp pThis) len)) ;;
       FINALIZE
     else
     lenRcvd <- gnutls (gnutls_record_recv (sess pThis) len) ;;
     (if lenRcvd <? 0 then
        assign (set_pLenBuf (-1)) ;;
        CHKgnutls (ret (int_of lenRcvd))
      else ret tt) ;;
     assign (set_pLenBuf lenRcvd))
    (fun _ => ret tt).

(** The [while(1)] loop of [Send].  [iSent] is an [int]: it holds
    what is left of the answer of [gnutls_record_send] after the
    conversion. *)
Fixpoint Send_loop (fuel : nat) (pThis : nsd_gtls_t) : M (io_frame * world) unit :=
  match fuel with
  | O => fun s => (Spin, s)
  | S fuel' =>
      len <- local pLenBuf ;;
      sent <- gnutls (gnutls_record_send (sess pThis) len) ;;
      let iSent := int_of sent in
      if 0 <=? iSent then
        assign (set_pLenBuf iSent)
      else if negb (iSent =? GNUTLS_E_INTERRUPTED) && negb (iSent =? GNUTLS_E_AGAIN) then
        gnutls_void (gnutls_perror iSent) ;;
        ABORT_FINALIZE RS_RET_GNUTLS_ERR
      else Send_loop fuel' pThis
  end.

(** [Send(pNsd, pBuf, pLenBuf)]. *)
Definition Send (fuel : nat) : io_frame * world -> result * (io_frame * world) :=
  c_function
    (pThis <- local io_this ;;
     (if negb (bAbortConn pThis =? 0)
      then ABORT_FINALIZE RS_RET_CONNECTION_ABORTREQ else ret tt) ;;
     len <- local pLenBuf ;;
     if iMode pThis =? 0 then
       CHKiRet (nsd_ptcp_io (nsd_ptcp_Send (pTcp pThis) len)) ;;
       FINALIZE
     else Send_loop fuel pThis)
    (fun _ => ret tt).

(** [Connect(pNsd, family, port, host)].  [gnutls_init] stores the new
    handle through [&pThis->sess] when it succeeds. *)
Definition Connect (family : Z) (port host : string)
  : nsd_gtls_t * world -> result * (nsd_gtls_t * world) :=
  c_function
    (pThis <- local (fun o : nsd_gtls_t => o) ;;
     CHKiRet (nsd_ptcp (nsd_ptcp_Connect (pTcp pThis) family port host)) ;;
     if iMode pThis =? 0 then FINALIZE else
     CHKgnutls (t <- extern (gnutls_init GNUTLS_CLIENT) ;;
                (if gnutls_ret env (gnutls_init GNUTLS_CLIENT) t =? 0
                 then assign (set_sess t) else ret tt) ;;
                ret (gnutls_ret env (gnutls_init GNUTLS_CLIENT) t)) ;;
     assign (set_bHaveSess 1) ;;
     assign (set_bIsInitiator 1) ;;
     s <- local sess ;;
     CHKgnutls (gnutls (gnutls_set_default_priority s)) ;;
     CHKgnutls (gnutls (gnutls_certificate_type_set_priority s)) ;;
     CHKgnutls (gnutls (gnutls_credentials_set s)) ;;
     t <- extern (nsd_ptcp_GetSock (pTcp pThis)) ;;
     CHKiRet (ret (ptcp_ret env (nsd_ptcp_GetSock (pTcp pThis)) t)) ;;
     gtlsSetTransportPtr (ptcp_out env (nsd_ptcp_GetSock (pTcp pThis)) t) ;;
     CHKgnutls (gnutls (gnutls_handshake s)) ;;
     CHKiRet (invoke gtlsChkFingerprint))
    (fun iRet =>
       match iRet with
       | RS_RET_OK => ret tt
       | _ =>
           have <- local bHaveSess ;;
           if negb (have =? 0) then
             s <- local sess ;;
             gnutls_void (gnutls_deinit s) ;;
             assign (set_bHaveSess 0)
           else ret tt
       end).

End Driver.

(** ** Vocabulary of the properties *)

Fixpoint count_chars (p : ascii -> bool) (s : string) : nat :=
  match s with
  | EmptyString => O
  | String c rest => ((if p c then 1 else 0) + count_chars p rest)%nat
  end.

Fixpoint all_chars (p : ascii -> bool) (s : string) : bool :=
  match s with
  | EmptyString => true
  | String c rest => p c && all_chars p rest
  end.

(** The digits [0-9] and the capitals [A-F]. *)
Definition is_hex_upper (c : ascii) : bool :=
  let n := N_of_ascii c in
  (((48 <=? n) && (n <=? 57)) || ((65 <=? n) && (n <=? 70)))%N.

Definition is_colon (c : ascii) : bool := Ascii.eqb c ":"%char.

(** What the loop of [GenFingerprintStr] appends, given the value of
    [bAddColon] it starts with. *)
Fixpoint appended (bAddColon : Z) (p : list byte) : string :=
  match p with
  | [] => EmptyString
  | b :: rest =>
      ((if (bAddColon =? 0)%Z then EmptyString else ":") ++ snprintf_2_2X b
       ++ appended 1 rest)%string
  end.

(** The number of expensive parameter generations in a trace. *)
Definition is_dh_generation (c : call) : bool :=
  match c with
  | gnutls_dh_params_generate2 _ => true
  | _ => false
  end.

Definition dh_generations (tr : list call) : nat :=
  List.length (List.filter is_dh_generation tr).

Definition is_handshake (c : call) : bool :=
  match c with
  | gnutls_handshake _ => true
  | _ => false
  end.

Definition is_init (c : call) : bool :=
  match c with
  | gnutls_init _ => true
  | _ => false
  end.

(** [n] calls of the listener set-up, one after the other: the results
    in call order and the state they leave. *)
Fixpoint repeat_gtlsGlblInitLstn (env : environment) (n : nat) (w : world)
  : list result * world :=
  match n with
  | O => ([], w)
  | S n' =>
      let (r, w1) := gtlsGlblInitLstn env w in
      let (rs, w2) := repeat_gtlsGlblInitLstn env n' w1 in
      (r :: rs, w2)
  end.

(** ** Sample sessions and environments *)

(** An environment in which every GnuTLS call answers 0 and every
    transport call succeeds; no peer certificate is on offer. *)
Definition quiet_env : environment :=
  mkEnv (fun _ _ => 0) (fun _ _ => RS_RET_OK) (fun _ _ => 0)
        (fun _ _ => []) (fun der => der) (fun _ => 0).

(** The state of a process that has made no call yet. *)
Definition fresh_world : world := mkWorld 0 [] 0.

(** A session in TLS mode that holds the handle 1. *)
Definition tls_session : nsd_gtls_t :=
  set_bHaveSess 1 (set_sess 1%nat (set_iMode 1 nsd_gtls_calloc)).

(** An environment whose GnuTLS answers are [g]; every transport call
    succeeds and no peer certificate is on offer. *)
Definition answering_env (g : call -> nat -> Z) : environment :=
  mkEnv g (fun _ _ => RS_RET_OK) (fun _ _ => 0)
        (fun _ _ => []) (fun der => der) (fun _ => 0).

(** The record layer delivers 7 bytes to a read and takes 5 bytes of a
    write. *)
Definition data_env : environment :=
  answering_env (fun c _ =>
    match c with
    | gnutls_record_recv _ _ => 7
    | gnutls_record_send _ _ => 5
    | _ => 0
    end).

(** The handshake would block when first tried (any time up to 7, the
    time [Connect] on a fresh process tries it at) and would complete
    on any later try. *)
Definition busy_once_env : environment :=
  answering_env (fun c t =>
    match c with
    | gnutls_handshake _ => if (t <=? 7)%nat then GNUTLS_E_AGAIN else 0
    | _ => 0
    end).

(** The handshake fails for good: -12, a fatal alert from the peer. *)
Definition refusing_env : environment :=
  answering_env (fun c _ =>
    match c with
    | gnutls_handshake _ => -12
    | _ => 0
    end).

(** Parameter generation fails: -25, out of memory. *)
Definition no_dh_env : environment :=
  answering_env (fun c _ =>
    match c with
    | gnutls_dh_params_generate2 _ => -25
    | _ => 0
    end).

(** The peer presents one X.509 certificate whose digest is 01 AB. *)
Definition cert_env : environment :=
  mkEnv (fun c _ =>
           match c with
           | gnutls_certificate_type_get _ => GNUTLS_CRT_X509
           | _ => 0
           end)
        (fun _ _ => RS_RET_OK) (fun _ _ => 0)
        (fun _ _ => [[x30; x82]]) (fun _ => [x01; xab]) (fun _ => 0).

(** A session in x509/fingerprint mode with three permitted peers; the
    second and the third entry are the same string. *)
Definition fingerprint_session : nsd_gtls_t :=
  set_pPermPeers ["01:ab"; "01:AB"; "01:AB"]%string
    (set_authMode GTLS_AUTH_CERTFINGERPRINT tls_session).

(** A session in TLS mode whose [bAbortConn] is set. *)
Definition aborted_tls_session : nsd_gtls_t :=
  mk_nsd_gtls None 1 1 GTLS_AUTH_CERTNAME gtlsRtry_None 0 1%nat 1 0 [].

(** The record layer has nothing to deliver yet: every read would
    block. *)
Definition no_data_env : environment :=
  answering_env (fun c _ =>
    match c with
    | gnutls_record_recv _ _ => GNUTLS_E_AGAIN
    | _ => 0
    end).

(** A listener in TLS mode. *)
Definition tls_listener : nsd_gtls_t :=
  set_pTcp (Some 0%nat) (set_iMode 1 nsd_gtls_calloc).

(** The session and process state that [Abort] leaves. *)
Definition after_Abort (env : environment) (pThis : nsd_gtls_t) (w : world)
  : nsd_gtls_t * world :=
  snd (Abort env (pThis, w)).

(** The TLS engine holds an X.509 certificate chain of the peer of
    session [s] whose first certificate is [leaf], and reads it without
    error. *)
Definition peer_presents (env : environment) (s : gnutls_session)
    (leaf : gnutls_datum) : Prop :=
  (forall t, gnutls_ret env (gnutls_certificate_type_get s) t = GNUTLS_CRT_X509) /\
  (forall t, exists rest,
      peer_certs env (gnutls_certificate_get_peers s) t = leaf :: rest) /\
  (forall t, gnutls_ret env gnutls_x509_crt_init t = 0) /\
  (forall c t, gnutls_ret env (gnutls_x509_crt_import c leaf) t = 0) /\
  (forall c t, gnutls_ret env (gnutls_x509_crt_get_fingerprint c) t = 0).

(** The process state after a first, successful listener set-up:
    three calls were made and [bGlblSrvrInitDone] is 1. *)
Definition listener_ready (w : world) : world :=
  let w3 := tick gnutls_certificate_set_dh_params
              (tick (gnutls_dh_params_generate2 DH_BITS)
                 (tick gnutls_dh_params_init w)) in
  mkWorld (clock w3) (trace w3) 1.

Definition is_deinit (c : call) : bool :=
  match c with
  | gnutls_deinit _ => true
  | _ => false
  end.

(** A client session in TLS mode, as constructed and configured. *)
Definition tls_client : nsd_gtls_t :=
  set_bReportAuthErr 1 (set_pTcp (Some 0%nat) (set_iMode 1 nsd_gtls_calloc)).

(** The calls of [Connect] in TLS mode up to and including the
    handshake, for the session handle [h] and the socket [sock]. *)
Definition Connect_calls (pThis : nsd_gtls_t) (family : Z) (port host : string)
    (h : gnutls_session) (sock : Z) : list call :=
  [nsd_ptcp_Connect (pTcp pThis) family port host;
   gnutls_init GNUTLS_CLIENT;
   gnutls_set_default_priority h;
   gnutls_certificate_type_set_priority h;
   gnutls_credentials_set h;
   nsd_ptcp_GetSock (pTcp pThis);
   gnutls_transport_set_ptr h sock;
   gnutls_handshake h].

(** The session and the process state of [Connect] right after its
    handshake call: the handle is the one created at time
    [clock w + 1]. *)
Definition Connect_after_handshake (env : environment) (family : Z)
    (port host : string) (pThis : nsd_gtls_t) (w : world) : nsd_gtls_t * world :=
  let h := S (clock w) in
  let sock := ptcp_out env (nsd_ptcp_GetSock (pTcp pThis)) (5 + clock w)%nat in
  (set_bIsInitiator 1 (set_bHaveSess 1 (set_sess h pThis)),
   mkWorld (8 + clock w)%nat
           (trace w ++ Connect_calls pThis family port host h sock)
           (bGlblSrvrInitDone w)).

(** The transport connects and the engine sets the client session up
    without error. *)
Definition Connect_setup_succeeds (env : environment) (family : Z)
    (port host : string) (pThis : nsd_gtls_t) : Prop :=
  (forall t, ptcp_ret env (nsd_ptcp_Connect (pTcp pThis) family port host) t = RS_RET_OK) /\
  (forall t, gnutls_ret env (gnutls_init GNUTLS_CLIENT) t = 0) /\
  (forall h t, gnutls_ret env (gnutls_set_default_priority h) t = 0) /\
  (forall h t, gnutls_ret env (gnutls_certificate_type_set_priority h) t = 0) /\
  (forall h t, gnutls_ret env (gnutls_credentials_set h) t = 0) /\
  (forall t, ptcp_ret env (nsd_ptcp_GetSock (pTcp pThis)) t = RS_RET_OK).

Definition handshakes (tr : list call) : nat :=
  List.length (List.filter is_handshake tr).

(** ** Process-wide initialisation and shutdown

    [gtlsGlblInit] and [gtlsGlblExit] run when the class is loaded and
    unloaded; their calls are kept in a trace of their own.  The trace
    holds the calls that act on the libraries' state; the debug text
    that is formatted when a call fails ([gtlsStrerror], [dbgprintf])
    is not a part of it. *)

Inductive glbl_call : Type :=
| gcry_control_SET_THREAD_CBS
| gnutls_global_init
| gnutls_certificate_allocate_credentials
| glbl_GetDfltNetstrmDrvrCAF
| gnutls_certificate_set_x509_trust_file
| gnutls_certificate_free_credentials
| gnutls_global_deinit.

Record glbl_world : Type := mkGlbl {
  glbl_clock : nat;
  glbl_trace : list glbl_call
}.

(** Make the call [c]; the value is the time it was made at. *)
Definition glbl_extern (c : glbl_call) : M (unit * glbl_world) nat :=
  fun s =>
    (Val (glbl_clock (snd s)),
     (fst s, mkGlbl (S (glbl_clock (snd s))) (glbl_trace (snd s) ++ [c]))).

(** [gtlsGlblInit]: the trust file is the one call whose result is
    tested with [< 0], not with [CHKgnutls]. *)
Definition gtlsGlblInit (answer : glbl_call -> nat -> Z)
  : glbl_world -> result * glbl_world :=
  fun w =>
    let (r, s) :=
      c_function (S := unit * glbl_world)
        (_ <- glbl_extern gcry_control_SET_THREAD_CBS ;;
         CHKgnutls (t <- glbl_extern gnutls_global_init ;;
                    ret (answer gnutls_global_init t)) ;;
         CHKgnutls (t <- glbl_extern gnutls_certificate_allocate_credentials ;;
                    ret (answer gnutls_certificate_allocate_credentials t)) ;;
         _ <- glbl_extern glbl_GetDfltNetstrmDrvrCAF ;;
         t <- glbl_extern gnutls_certificate_set_x509_trust_file ;;
         let gnuRet := answer gnutls_certificate_set_x509_trust_file t in
         if gnuRet <? 0 then ABORT_FINALIZE RS_RET_GNUTLS_ERR else ret tt)
        (fun _ => ret tt) (tt, w) in
    (r, snd s).

(** [gtlsGlblExit]. *)
Definition gtlsGlblExit : glbl_world -> result * glbl_world :=
  fun w =>
    let (r, s) :=
      c_function (S := unit * glbl_world)
        (_ <- glbl_extern gnutls_certificate_free_credentials ;;
         _ <- glbl_extern gnutls_global_deinit ;;
         ret tt)
        (fun _ => ret tt) (tt, w) in
    (r, snd s).

(** ** Further vocabulary *)

(** The same call made [n] times in a row. *)
Fixpoint ticks (c : call) (n : nat) (w : world) : world :=
  match n with
  | O => w
  | S n' => ticks c n' (tick c w)
  end.

(** What the destructor does with the transport object: it is
    destructed if there is one. *)
Definition transport_destructed (pThis : nsd_gtls_t) (w : world) : nsd_gtls_t * world :=
  match pTcp pThis with
  | Some _ => (set_pTcp None pThis, tick (nsd_ptcp_Destruct (pTcp pThis)) w)
  | None => (pThis, w)
  end.

(** The two answers of the engine that the retry loops try again on. *)
Definition transient (gnuRet : Z) : Prop :=
  gnuRet = GNUTLS_E_INTERRUPTED \/ gnuRet = GNUTLS_E_AGAIN.

(** Calls into GnuTLS, as opposed to the transport driver and the
    logger. *)
Definition is_gnutls_call (c : call) : bool :=
  match c with
  | nsd_ptcp_Construct | nsd_ptcp_Destruct _ | nsd_ptcp_Abort _
  | nsd_ptcp_LstnInit _ _ _ | nsd_ptcp_AcceptConnReq _ | nsd_ptcp_Rcv _ _
  | nsd_ptcp_Send _ _ | nsd_ptcp_Connect _ _ _ _ | nsd_ptcp_GetSock _
  | errmsg_LogError _ _ => false
  | _ => true
  end.

(** Calls that read the peer's certificate. *)
Definition is_cert_lookup (c : call) : bool :=
  match c with
  | gnutls_certificate_type_get _ | gnutls_certificate_get_peers _
  | gnutls_x509_crt_init | gnutls_x509_crt_import _ _
  | gnutls_x509_crt_get_fingerprint _ | gnutls_x509_crt_deinit _ => true
  | _ => false
  end.

Definition is_crt_init (c : call) : bool :=
  match c with
  | gnutls_x509_crt_init => true
  | _ => false
  end.

Definition is_crt_deinit (c : call) : bool :=
  match c with
  | gnutls_x509_crt_deinit _ => true
  | _ => false
  end.

Definition is_log (c : call) : bool :=
  match c with
  | errmsg_LogError _ _ => true
  | _ => false
  end.

Definition is_dh_install (c : call) : bool :=
  match c with
  | gnutls_certificate_set_dh_params => true
  | _ => false
  end.

Definition is_transport_listen (c : call) : bool :=
  match c with
  | nsd_ptcp_LstnInit _ _ _ => true
  | _ => false
  end.

(** The record layer would block twice (times 0 and 1) and then takes
    5 bytes; a session shutdown is interrupted once (time 0). *)
Definition slow_env : environment :=
  answering_env (fun c t =>
    match c with
    | gnutls_record_send _ _ => if (t <? 2)%nat then GNUTLS_E_AGAIN else 5
    | gnutls_bye _ => if (t <? 1)%nat then GNUTLS_E_INTERRUPTED else 0
    | _ => 0
    end).

(** The record layer fails for good on the first write: -10, the
    session is invalid. *)
Definition broken_send_env : environment :=
  answering_env (fun c _ =>
    match c with
    | gnutls_record_send _ _ => -10
    | _ => 0
    end).

(** The peer presents a certificate that is not X.509 (type 2). *)
Definition openpgp_env : environment :=
  mkEnv (fun c _ =>
           match c with
           | gnutls_certificate_type_get _ => 2
           | _ => 0
           end)
        (fun _ _ => RS_RET_OK) (fun _ _ => 0)
        (fun _ _ => [[x30; x82]]) (fun _ => [x01; xab]) (fun _ => 0).

(** X.509 is negotiated but the peer sent no certificate. *)
Definition no_cert_env : environment :=
  mkEnv (fun c _ =>
           match c with
           | gnutls_certificate_type_get _ => GNUTLS_CRT_X509
           | _ => 0
           end)
        (fun _ _ => RS_RET_OK) (fun _ _ => 0)
        (fun _ _ => []) (fun _ => []) (fun _ => 0).

(** A session in plain tcp mode. *)
Definition plain_session : nsd_gtls_t :=
  set_pTcp (Some 0%nat) nsd_gtls_calloc.

(** The transport driver cannot build its object: -6 stands for any
    failure code of rsyslog.h. *)
Definition no_transport_env : environment :=
  mkEnv (fun _ _ => 0)
        (fun c _ => match c with
                    | nsd_ptcp_Construct => RS_RET_ERR (-6)
                    | _ => RS_RET_OK
                    end)
        (fun _ _ => 0) (fun _ _ => []) (fun der => der) (fun _ => 0).

(** The new object is constructed and the transport driver accepts
    the connection; the engine sets the server session up without
    error. *)
Definition Accept_setup_succeeds (env : environment) (pThis : nsd_gtls_t) : Prop :=
  (forall t, gnutls_ret env gnutls_certificate_set_x509_key_file t = 0) /\
  (forall o t, ptcp_ret env (nsd_ptcp_Destruct o) t = RS_RET_OK) /\
  (forall t, ptcp_ret env (nsd_ptcp_AcceptConnReq (pTcp pThis)) t = RS_RET_OK) /\
  (forall h t, gnutls_ret env (gnutls_set_default_priority h) t = 0) /\
  (forall h t, gnutls_ret env (gnutls_credentials_set h) t = 0).

(** A listener in TLS and x509/fingerprint mode with one permitted
    peer. *)
Definition listener_fingerprint : nsd_gtls_t :=
  set_pPermPeers ["01:AB"]%string (set_authMode GTLS_AUTH_CERTFINGERPRINT tls_listener).

(** Answers at class load time: everything succeeds and the trust
    file holds three certificates. *)
Definition trusting (c : glbl_call) (t : nat) : Z :=
  match c with
  | gnutls_certificate_set_x509_trust_file => 3
  | _ => 0
  end.

(** The trust file cannot be read: -64, a file error. *)
Definition no_trust_file (c : glbl_call) (t : nat) : Z :=
  match c with
  | gnutls_certificate_set_x509_trust_file => -64
  | _ => 0
  end.

(** ** Symbolic execution of a body *)

(** Unfold the statement combinators and reduce; what remains are the
    tests on values the environment supplies. *)
Ltac run_c :=
  repeat progress
    (cbv beta iota zeta delta
       [bind ret gets modify FINALIZE ABORT_FINALIZE RETURN CHKiRet CHKgnutls
        invoke extern local assign invoke_global
        gnutls gnutls_void nsd_ptcp LogError nsd_ptcp_io on_pNew
        on_pStr rsCStrConstruct rsCStrAppendChar rsCStrAppendStrWithLen rsCStrFinish
        GenFingerprintStr_finalize gtlsSetTransportPtr set_pLenBuf c_function];
     cbn [fst snd tick
          gf_pStr gf_bAddColon gf_ppStr
          chk_this bMustDeinitCert cert io_this pLenBuf pNew ppNew
          clock trace bGlblSrvrInitDone
          pTcp iMode bAbortConn authMode rtryCall bIsInitiator sess bHaveSess
          bReportAuthErr pPermPeers
          set_pTcp set_iMode set_authMode set_rtryCall set_bIsInitiator set_sess
          set_bHaveSess set_bReportAuthErr set_pPermPeers nsd_gtls_calloc]).

(** ** Fingerprint rendering *)

Section Fingerprint.

Local Open Scope string_scope.

Lemma count_chars_app p (a b : string) :
  count_chars p (a ++ b) = (count_chars p a + count_chars p b)%nat.
Proof.
  induction a as [|c a IH]; simpl; [reflexivity|].
  rewrite IH. lia.
Qed.

Lemma all_chars_app p (a b : string) :
  all_chars p (a ++ b) = all_chars p a && all_chars p b.
Proof.
  induction a as [|c a IH]; simpl; [reflexivity|].
  rewrite IH. now rewrite andb_assoc.
Qed.

Lemma string_app_assoc (a b c : string) : (a ++ b) ++ c = a ++ (b ++ c).
Proof.
  induction a as [|x a IH]; simpl; [reflexivity|]. now rewrite IH.
Qed.

Lemma string_app_empty_r (a : string) : a ++ "" = a.
Proof.
  induction a as [|x a IH]; simpl; [reflexivity|]. now rewrite IH.
Qed.

Lemma string_length_app (a b : string) :
  String.length (a ++ b) = (String.length a + String.length b)%nat.
Proof.
  induction a as [|x a IH]; simpl; [reflexivity|]. now rewrite IH.
Qed.

Lemma hex_digit_upper_is_hex n : is_hex_upper (hex_digit_upper n) = true.
Proof.
  destruct n as [|p]; [reflexivity|].
  do 4 (try destruct p as [p|p|]); reflexivity.
Qed.

Lemma hex_digit_upper_not_colon n : is_colon (hex_digit_upper n) = false.
Proof.
  destruct n as [|p]; [reflexivity|].
  do 4 (try destruct p as [p|p|]); reflexivity.
Qed.

Lemma snprintf_2_2X_hex b : count_chars is_hex_upper (snprintf_2_2X b) = 2%nat.
Proof.
  unfold snprintf_2_2X; simpl. now rewrite !hex_digit_upper_is_hex.
Qed.

Lemma snprintf_2_2X_colon b : count_chars is_colon (snprintf_2_2X b) = 0%nat.
Proof.
  unfold snprintf_2_2X; simpl. now rewrite !hex_digit_upper_not_colon.
Qed.

Lemma snprintf_2_2X_all b :
  all_chars (fun c => is_hex_upper c || is_colon c) (snprintf_2_2X b) = true.
Proof.
  unfold snprintf_2_2X; simpl. now rewrite !hex_digit_upper_is_hex.
Qed.

Lemma appended_concat b rest :
  appended 0 (b :: rest) = concat ":" (map snprintf_2_2X (b :: rest)).
Proof.
  revert b; induction rest as [|b' rest IH]; intros b.
  - reflexivity.
  - change (appended 0 (b :: b' :: rest))
      with (snprintf_2_2X b ++ ":" ++ snprintf_2_2X b' ++ appended 1 rest).
    change (concat ":" (map snprintf_2_2X (b :: b' :: rest)))
      with (snprintf_2_2X b ++ ":" ++ concat ":" (map snprintf_2_2X (b' :: rest))).
    rewrite <- IH. reflexivity.
Qed.

Lemma GenFingerprintStr_step_run b s flag pp :
  GenFingerprintStr_step b (mkGenFrame (Some s) flag pp)
  = (Val tt, mkGenFrame (Some (s ++ (if (flag =? 0)%Z then "" else ":") ++ snprintf_2_2X b))
                        (if (flag =? 0)%Z then 1%Z else flag) pp).
Proof.
  unfold GenFingerprintStr_step, bind, gets, modify, CHKiRet, on_pStr, ret.
  cbn. destruct (flag =? 0)%Z; cbn.
  - reflexivity.
  - now rewrite string_app_assoc.
Qed.

Lemma GenFingerprintStr_loop p : forall s flag pp,
  exists flag',
    for_each p GenFingerprintStr_step (mkGenFrame (Some s) flag pp)
    = (Val tt, mkGenFrame (Some (s ++ appended flag p)) flag' pp).
Proof.
  induction p as [|b rest IH]; intros s flag pp.
  - exists flag. simpl. now rewrite string_app_empty_r.
  - cbn [for_each]. unfold bind at 1. rewrite GenFingerprintStr_step_run.
    cbv beta iota.
    destruct (IH (s ++ (if (flag =? 0)%Z then "" else ":") ++ snprintf_2_2X b)
                 (if (flag =? 0)%Z then 1%Z else flag) pp) as [flag' Hrun].
    exists flag'. rewrite Hrun. cbn [appended].
    assert (Hone : appended (if (flag =? 0)%Z then 1%Z else flag) rest = appended 1 rest).
    { destruct (flag =? 0)%Z eqn:Hf; [reflexivity|].
      destruct rest as [|b' rest']; [reflexivity|].
      cbn [appended]. rewrite Hf. reflexivity. }
    rewrite Hone, !string_app_assoc. reflexivity.
Qed.

Lemma GenFingerprintStr_appended p :
  GenFingerprintStr p = (Done RS_RET_OK, Some (appended 0 p)).
Proof.
  destruct (GenFingerprintStr_loop p "" 0%Z None) as [flag' Hrun].
  unfold GenFingerprintStr, c_function, GenFingerprintStr_body.
  run_c. rewrite Hrun. run_c. reflexivity.
Qed.

Lemma appended_counts p : forall flag,
  count_chars is_hex_upper (appended flag p) = (2 * List.length p)%nat /\
  count_chars is_colon (appended flag p)
    = (match p with [] => 0 | _ => List.length p - (if (flag =? 0)%Z then 1 else 0) end)%nat /\
  all_chars (fun c => is_hex_upper c || is_colon c) (appended flag p) = true.
Proof.
  induction p as [|b rest IH]; intros flag.
  - simpl. auto.
  - destruct (IH 1%Z) as (Hh & Hc & Ha).
    cbn [appended].
    rewrite !count_chars_app, !all_chars_app, Hh, Hc, Ha.
    rewrite snprintf_2_2X_hex, snprintf_2_2X_colon, snprintf_2_2X_all.
    destruct (flag =? 0)%Z; cbn; (split; [lia|split; [|reflexivity]]);
      destruct rest; simpl; lia.
Qed.

End Fingerprint.

(** ** The rendered fingerprint *)

(** C7: for a digest of D >= 1 bytes the rendered string is the
    two-character uppercase hexadecimal form of each byte, joined by
    colons: it holds exactly 2*D hexadecimal digits, all of them from
    [0-9A-F], exactly D-1 colons, and nothing else. *)
Theorem GenFingerprintStr_format (digest : list byte) :
  (1 <= List.length digest)%nat ->
  exists str : string,
    GenFingerprintStr digest = (Done RS_RET_OK, Some str) /\
    str = String.concat ":" (map snprintf_2_2X digest) /\
    count_chars is_hex_upper str = (2 * List.length digest)%nat /\
    count_chars is_colon str = (List.length digest - 1)%nat /\
    String.length str = (3 * List.length digest - 1)%nat /\
    all_chars (fun c => is_hex_upper c || is_colon c) str = true.
Proof.
  intros Hlen. exists (appended 0 digest).
  destruct (appended_counts digest 0) as (Hh & Hc & Ha).
  destruct digest as [|b rest]; [simpl in Hlen; lia|].
  split; [apply GenFingerprintStr_appended|].
  split; [apply appended_concat|].
  split; [exact Hh|].
  split; [rewrite Hc; simpl; lia|].
  split; [|exact Ha].
  assert (Hgen : forall p f,
             String.length (appended f p)
             = (3 * List.length p
                - (match p with [] => 0 | _ => if (f =? 0)%Z then 1 else 0 end))%nat).
  { induction p as [|x p IH]; intros f; [reflexivity|].
    cbn [appended]. rewrite !string_length_app, IH.
    destruct (f =? 0)%Z; destruct p; simpl; lia. }
  rewrite Hgen. cbn -[Nat.mul Nat.sub List.length]. lia.
Qed.

Lemma GenFingerprintStr_format_witness :
  exists str : string,
    GenFingerprintStr [x00; xab; xff] = (Done RS_RET_OK, Some str) /\
    str = String.concat ":" (map snprintf_2_2X [x00; xab; xff]) /\
    count_chars is_hex_upper str = 6%nat /\
    count_chars is_colon str = 2%nat /\
    String.length str = 8%nat /\
    all_chars (fun c => is_hex_upper c || is_colon c) str = true.
Proof.
  apply (GenFingerprintStr_format [x00; xab; xff]). simpl. lia.
Defined.

(** ** Configuration of a session *)

(** C8: a mode other than 0 (plain tcp) and 1 (TLS) is refused with
    [RS_RET_INVALID_DRVR_MODE], the session object staying as it was
    and the refusal being logged; the modes 0 and 1 are accepted and
    stored in [iMode]. *)
Theorem SetMode_spec (pThis : nsd_gtls_t) (w : world) (mode : Z) :
  (mode <> 0 -> mode <> 1 ->
   SetMode mode (pThis, w)
   = (Done RS_RET_INVALID_DRVR_MODE,
      (pThis,
       tick (errmsg_LogError "error: driver mode %d not supported by gtls netstream driver"
                             (IntArg mode)) w))) /\
  (mode = 0 \/ mode = 1 ->
   SetMode mode (pThis, w) = (Done RS_RET_OK, (set_iMode mode pThis, w)) /\
   iMode (set_iMode mode pThis) = mode).
Proof.
  split.
  - intros H0 H1. unfold SetMode, c_function. run_c.
    apply Z.eqb_neq in H0, H1. rewrite H0, H1. reflexivity.
  - intros [-> | ->]; split; reflexivity.
Qed.

Lemma SetMode_spec_witness :
  SetMode 2 (tls_session, fresh_world)
  = (Done RS_RET_INVALID_DRVR_MODE,
     (tls_session,
      tick (errmsg_LogError "error: driver mode %d not supported by gtls netstream driver"
                            (IntArg 2)) fresh_world)) /\
  SetMode 0 (tls_session, fresh_world)
  = (Done RS_RET_OK, (set_iMode 0 tls_session, fresh_world)).
Proof.
  split.
  - apply (proj1 (SetMode_spec tls_session fresh_world 2)); lia.
  - apply (proj2 (SetMode_spec tls_session fresh_world 0)). left. reflexivity.
Defined.

(** C9: a NULL list is accepted in every authentication mode and
    changes nothing; a list with entries is refused with
    [RS_RET_VALUE_NOT_IN_THIS_MODE] when the mode is neither x509/name
    nor x509/fingerprint, the stored list staying as it was; in those
    two modes it is stored. *)
Theorem SetPermPeers_spec (pThis : nsd_gtls_t) (w : world)
    (pPermPeers' : permittedPeers_t) :
  SetPermPeers [] (pThis, w) = (Done RS_RET_OK, (pThis, w)) /\
  (pPermPeers' <> [] ->
   authMode pThis <> GTLS_AUTH_CERTNAME ->
   authMode pThis <> GTLS_AUTH_CERTFINGERPRINT ->
   SetPermPeers pPermPeers' (pThis, w)
   = (Done RS_RET_VALUE_NOT_IN_THIS_MODE,
      (pThis,
       tick (errmsg_LogError
               "authentication not supported by gtls netstream driver in the configured authentication mode - ignored"
               NoArg) w))) /\
  (pPermPeers' <> [] ->
   authMode pThis = GTLS_AUTH_CERTNAME \/ authMode pThis = GTLS_AUTH_CERTFINGERPRINT ->
   SetPermPeers pPermPeers' (pThis, w)
   = (Done RS_RET_OK, (set_pPermPeers pPermPeers' pThis, w)) /\
   pPermPeers (set_pPermPeers pPermPeers' pThis) = pPermPeers').
Proof.
  split; [reflexivity|]. split.
  - intros Hne Hname Hfp.
    destruct pPermPeers' as [|id rest]; [congruence|].
    unfold SetPermPeers, c_function. run_c.
    destruct (authMode pThis); try congruence. reflexivity.
  - intros Hne Hmode.
    destruct pPermPeers' as [|id rest]; [congruence|].
    unfold SetPermPeers, c_function. run_c.
    destruct Hmode as [-> | ->]; split; reflexivity.
Qed.

Lemma SetPermPeers_spec_witness :
  SetPermPeers ["AB:CD"%string]
    (set_authMode GTLS_AUTH_CERTANON tls_session, fresh_world)
  = (Done RS_RET_VALUE_NOT_IN_THIS_MODE,
     (set_authMode GTLS_AUTH_CERTANON tls_session,
      tick (errmsg_LogError
              "authentication not supported by gtls netstream driver in the configured authentication mode - ignored"
              NoArg) fresh_world)) /\
  SetPermPeers ["AB:CD"%string]
    (set_authMode GTLS_AUTH_CERTFINGERPRINT tls_session, fresh_world)
  = (Done RS_RET_OK,
     (set_pPermPeers ["AB:CD"%string]
        (set_authMode GTLS_AUTH_CERTFINGERPRINT tls_session), fresh_world)).
Proof.
  split.
  - apply (proj1 (proj2 (SetPermPeers_spec
                           (set_authMode GTLS_AUTH_CERTANON tls_session)
                           fresh_world ["AB:CD"%string]))); simpl; congruence.
  - apply (proj2 (proj2 (SetPermPeers_spec
                           (set_authMode GTLS_AUTH_CERTFINGERPRINT tls_session)
                           fresh_world ["AB:CD"%string]))).
    + congruence.
    + right. reflexivity.
Defined.

(** C2: [SetAuthMode] without a mode string selects x509/name, which is
    also what a freshly constructed object holds; and in that mode the
    peer check answers [RS_RET_OK] at once: the session and the process
    state are exactly what they were, so no call was made and no
    certificate was fetched or looked at, whatever the environment. *)
Theorem gtlsChkFingerprint_certname_unchecked (env : environment)
    (pThis : nsd_gtls_t) (w : world) :
  SetAuthMode None (pThis, w)
  = (Done RS_RET_OK, (set_authMode GTLS_AUTH_CERTNAME pThis, w)) /\
  authMode (fst (snd (nsd_gtlsConstruct env w))) = GTLS_AUTH_CERTNAME /\
  (authMode pThis = GTLS_AUTH_CERTNAME ->
   gtlsChkFingerprint env (pThis, w) = (Done RS_RET_OK, (pThis, w))).
Proof.
  split; [reflexivity|]. split.
  { unfold nsd_gtlsConstruct, nsd_gtlsInitialize, gtlsAddOurCert. run_c.
    destruct (gnutls_ret env gnutls_certificate_set_x509_key_file (S (clock w)) =? 0);
      reflexivity. }
  intros Hmode. unfold gtlsChkFingerprint, c_function, gtlsChkFingerprint_body.
  run_c. rewrite Hmode. reflexivity.
Qed.

Lemma gtlsChkFingerprint_certname_unchecked_witness :
  gtlsChkFingerprint quiet_env (tls_session, fresh_world)
  = (Done RS_RET_OK, (tls_session, fresh_world)).
Proof.
  apply (proj2 (proj2 (gtlsChkFingerprint_certname_unchecked
                         quiet_env tls_session fresh_world))).
  reflexivity.
Defined.

(** ** Data transfer and abort *)

(** An answer that fits an [int] is stored in one unchanged. *)
Lemma int_of_small (z : Z) : - 2 ^ 31 <= z < 2 ^ 31 -> int_of z = z.
Proof.
  intros Hz. unfold int_of. rewrite Z.mod_small; lia.
Qed.




(** Outside the [int] range the error path does not abort when the low
    32 bits of the answer are 0: the answer -2^32 leaves [Rcv] with
    [RS_RET_OK] and that number as the length. *)
Example Rcv_answer_beyond_int :
  Rcv (answering_env (fun c _ =>
         match c with
         | gnutls_record_recv _ _ => - 2 ^ 32
         | _ => 0
         end))
      (mkIo tls_session 100, fresh_world)
  = (Done RS_RET_OK,
     (mkIo tls_session (- 2 ^ 32), tick (gnutls_record_recv 1%nat 100) fresh_world)).
Proof. reflexivity. Qed.

(** When the engine has no data yet and says so with its would-block
    signal, the caller of [Rcv] sees an error and the length -1. *)
Example Rcv_would_block_is_an_error :
  Rcv no_data_env (mkIo tls_session 100, fresh_world)
  = (Done RS_RET_GNUTLS_ERR,
     (mkIo tls_session (-1), tick (gnutls_record_recv 1%nat 100) fresh_world)).
Proof. reflexivity. Qed.

(** C3, as the code has it: [Send] and [Rcv] on a session whose
    [bAbortConn] is set fail with [RS_RET_CONNECTION_ABORTREQ] before
    any call is made; [Abort] does not set that flag: it succeeds,
    leaves the session object as it was, and only in plain tcp mode
    passes the abort on to the transport driver. *)
Theorem aborted_flag_refuses_io (env : environment) (pThis : nsd_gtls_t)
    (len : Z) (fuel : nat) (w : world) :
  (bAbortConn pThis <> 0 ->
   Send env fuel (mkIo pThis len, w)
   = (Done RS_RET_CONNECTION_ABORTREQ, (mkIo pThis len, w)) /\
   Rcv env (mkIo pThis len, w)
   = (Done RS_RET_CONNECTION_ABORTREQ, (mkIo pThis len, w))) /\
  Abort env (pThis, w)
  = (Done RS_RET_OK,
     (pThis, if iMode pThis =? 0 then tick (nsd_ptcp_Abort (pTcp pThis)) w else w)).
Proof.
  split.
  - intros Hflag. apply Z.eqb_neq in Hflag.
    unfold Send, Rcv, c_function. run_c. rewrite Hflag. cbn [negb].
    split; reflexivity.
  - unfold Abort, c_function. run_c.
    destruct (iMode pThis =? 0); reflexivity.
Qed.

Lemma aborted_flag_refuses_io_witness :
  Send quiet_env 1 (mkIo aborted_tls_session 100, fresh_world)
  = (Done RS_RET_CONNECTION_ABORTREQ, (mkIo aborted_tls_session 100, fresh_world)) /\
  Rcv quiet_env (mkIo aborted_tls_session 100, fresh_world)
  = (Done RS_RET_CONNECTION_ABORTREQ, (mkIo aborted_tls_session 100, fresh_world)).
Proof.
  apply (proj1 (aborted_flag_refuses_io quiet_env aborted_tls_session 100 1
                  fresh_world)).
  simpl. lia.
Defined.

(** C3 as stated fails: a session in TLS mode on which [Abort] has
    returned still sends (5 bytes) and receives (7 bytes) with
    [RS_RET_OK], since [Abort] left [bAbortConn] at 0. *)
Lemma io_after_Abort_still_served :
  fst (Abort data_env (tls_session, fresh_world)) = Done RS_RET_OK /\
  bAbortConn (fst (after_Abort data_env tls_session fresh_world)) = 0 /\
  fst (Send data_env 1
         (mkIo (fst (after_Abort data_env tls_session fresh_world)) 100,
          snd (after_Abort data_env tls_session fresh_world)))
  = Done RS_RET_OK /\
  fst (Rcv data_env
         (mkIo (fst (after_Abort data_env tls_session fresh_world)) 100,
          snd (after_Abort data_env tls_session fresh_world)))
  = Done RS_RET_OK.
Proof. repeat split; reflexivity. Qed.

(** ** The peer check *)

Lemma rsCStrSzStrCmp_zero (a b : string) :
  (rsCStrSzStrCmp a b =? 0) = true <-> a = b.
Proof.
  unfold rsCStrSzStrCmp. destruct (String.eqb a b) eqn:Heq.
  - apply String.eqb_eq in Heq. split; [intros _; exact Heq | reflexivity].
  - apply String.eqb_neq in Heq. split; [discriminate | intros H; contradiction].
Qed.

Lemma search_permitted_peers_miss (F : string) (peers : permittedPeers_t) :
  ~ In F peers -> search_permitted_peers F peers = (0, []).
Proof.
  induction peers as [|id rest IH]; intros Hnot; [reflexivity|].
  cbn [search_permitted_peers].
  destruct (rsCStrSzStrCmp F id =? 0) eqn:Hcmp.
  - apply rsCStrSzStrCmp_zero in Hcmp. subst id. exfalso. apply Hnot. now left.
  - apply IH. intros Hin. apply Hnot. now right.
Qed.

Lemma search_permitted_peers_hit (F : string) (peers : permittedPeers_t) :
  In F peers ->
  exists before after,
    peers = before ++ F :: after /\ ~ In F before /\
    search_permitted_peers F peers = (1, F :: after).
Proof.
  induction peers as [|id rest IH]; intros Hin; [contradiction|].
  cbn [search_permitted_peers].
  destruct (rsCStrSzStrCmp F id =? 0) eqn:Hcmp.
  - apply rsCStrSzStrCmp_zero in Hcmp. subst id.
    exists [], rest. repeat split. intros [].
  - assert (Hne : F <> id).
    { intros ->. assert (Ht : (rsCStrSzStrCmp id id =? 0) = true)
        by now apply rsCStrSzStrCmp_zero.
      congruence. }
    destruct Hin as [Heq | Hin]; [congruence|].
    destruct (IH Hin) as (before & after & -> & Hnot & Hrun).
    exists (id :: before), after. repeat split; [|exact Hrun].
    intros [Heq | Hin']; [congruence | contradiction].
Qed.

Lemma gtlsChkFingerprint_by_search (env : environment) (pThis : nsd_gtls_t)
    (w : world) (leaf : gnutls_datum) :
  authMode pThis = GTLS_AUTH_CERTFINGERPRINT ->
  peer_presents env (sess pThis) leaf ->
  fst (gtlsChkFingerprint env (pThis, w))
  = if fst (search_permitted_peers (appended 0 (x509_fingerprint env leaf))
              (pPermPeers pThis)) =? 0
    then Done RS_RET_INVALID_FINGERPRINT
    else Done RS_RET_OK.
Proof.
  intros Hmode (Htype & Hpeers & Hinit & Himport & Hdigest).
  unfold gtlsChkFingerprint, c_function, gtlsChkFingerprint_body,
    gtlsChkFingerprint_finalize.
  run_c. rewrite Hmode. cbn [authMode_is_fingerprint negb]. run_c.
  rewrite Htype, Z.eqb_refl. cbn [negb]. run_c.
  destruct (Hpeers (S (clock w))) as [rest ->]. run_c.
  rewrite Hinit. cbn [Z.eqb]. run_c.
  rewrite Himport. cbn [Z.eqb]. run_c.
  rewrite Hdigest. cbn [Z.eqb]. run_c.
  rewrite GenFingerprintStr_appended. run_c.
  destruct (search_permitted_peers (appended 0 (x509_fingerprint env leaf))
              (pPermPeers pThis)) as [found pPeer].
  cbn [fst]. destruct (found =? 0); run_c.
  - destruct (bReportAuthErr pThis =? 1); run_c; reflexivity.
  - reflexivity.
Qed.

(** C1: in x509/fingerprint mode, when the engine delivers the peer's
    leaf certificate, the check succeeds exactly when the rendered
    fingerprint is, character for character, one of the permitted
    peers; otherwise it fails with [RS_RET_INVALID_FINGERPRINT].  The
    list is searched front to back and the search stops at the first
    entry that is equal: no earlier entry is equal, and the loop is
    left pointing at that entry. *)
Theorem gtlsChkFingerprint_exact_match (env : environment) (pThis : nsd_gtls_t)
    (w : world) (leaf : gnutls_datum) :
  authMode pThis = GTLS_AUTH_CERTFINGERPRINT ->
  peer_presents env (sess pThis) leaf ->
  exists F : string,
    GenFingerprintStr (x509_fingerprint env leaf) = (Done RS_RET_OK, Some F) /\
    (fst (gtlsChkFingerprint env (pThis, w)) = Done RS_RET_OK
     <-> In F (pPermPeers pThis)) /\
    (~ In F (pPermPeers pThis) ->
     fst (gtlsChkFingerprint env (pThis, w)) = Done RS_RET_INVALID_FINGERPRINT) /\
    (In F (pPermPeers pThis) ->
     exists before after,
       pPermPeers pThis = before ++ F :: after /\
       ~ In F before /\
       search_permitted_peers F (pPermPeers pThis) = (1, F :: after)).
Proof.
  intros Hmode Hpeer.
  exists (appended 0 (x509_fingerprint env leaf)).
  pose proof (gtlsChkFingerprint_by_search env pThis w leaf Hmode Hpeer) as Hrun.
  set (F := appended 0 (x509_fingerprint env leaf)) in *.
  split; [apply GenFingerprintStr_appended|].
  assert (Hmiss : ~ In F (pPermPeers pThis) ->
                  fst (gtlsChkFingerprint env (pThis, w))
                  = Done RS_RET_INVALID_FINGERPRINT).
  { intros Hnot. rewrite Hrun, (search_permitted_peers_miss F _ Hnot). reflexivity. }
  assert (Hhit : In F (pPermPeers pThis) ->
                 fst (gtlsChkFingerprint env (pThis, w)) = Done RS_RET_OK).
  { intros Hin. destruct (search_permitted_peers_hit F _ Hin) as (b & a & _ & _ & Hs).
    rewrite Hrun, Hs. reflexivity. }
  split; [|split; [exact Hmiss | apply search_permitted_peers_hit]].
  split; [|exact Hhit].
  intros Hok. destruct (in_dec string_dec F (pPermPeers pThis)) as [Hin | Hnot];
    [exact Hin|].
  rewrite (Hmiss Hnot) in Hok. discriminate.
Qed.

Lemma gtlsChkFingerprint_exact_match_witness :
  exists F : string,
    GenFingerprintStr (x509_fingerprint cert_env [x30; x82])
    = (Done RS_RET_OK, Some F) /\
    (fst (gtlsChkFingerprint cert_env (fingerprint_session, fresh_world))
     = Done RS_RET_OK
     <-> In F (pPermPeers fingerprint_session)) /\
    (~ In F (pPermPeers fingerprint_session) ->
     fst (gtlsChkFingerprint cert_env (fingerprint_session, fresh_world))
     = Done RS_RET_INVALID_FINGERPRINT) /\
    (In F (pPermPeers fingerprint_session) ->
     exists before after,
       pPermPeers fingerprint_session = before ++ F :: after /\
       ~ In F before /\
       search_permitted_peers F (pPermPeers fingerprint_session) = (1, F :: after)).
Proof.
  apply (gtlsChkFingerprint_exact_match cert_env fingerprint_session fresh_world
           [x30; x82]).
  - reflexivity.
  - repeat split; intros; try reflexivity. exists []. reflexivity.
Defined.

(** The comparison is case sensitive, and of two equal entries the
    first one ends the search. *)
Example search_permitted_peers_first_match :
  search_permitted_peers "01:AB" ["01:ab"; "01:AB"; "01:AB"]%string
  = (1, ["01:AB"; "01:AB"]%string) /\
  fst (gtlsChkFingerprint cert_env (fingerprint_session, fresh_world)) = Done RS_RET_OK /\
  fst (gtlsChkFingerprint cert_env
         (set_pPermPeers ["01:ab"]%string fingerprint_session, fresh_world))
  = Done RS_RET_INVALID_FINGERPRINT.
Proof. repeat split; reflexivity. Qed.

(** ** Listener set-up *)

Lemma gtlsGlblInitLstn_done (env : environment) (w : world) :
  bGlblSrvrInitDone w <> 0 -> gtlsGlblInitLstn env w = (Done RS_RET_OK, w).
Proof.
  intros Hdone. apply Z.eqb_neq in Hdone.
  unfold gtlsGlblInitLstn, c_function. run_c. rewrite Hdone. reflexivity.
Qed.

Lemma gtlsGlblInitLstn_first (env : environment) (w : world) :
  bGlblSrvrInitDone w = 0 ->
  gnutls_ret env gnutls_dh_params_init (clock w) = 0 ->
  gnutls_ret env (gnutls_dh_params_generate2 DH_BITS) (S (clock w)) = 0 ->
  gtlsGlblInitLstn env w = (Done RS_RET_OK, listener_ready w).
Proof.
  intros Hflag Hinit Hgen.
  unfold gtlsGlblInitLstn, c_function. run_c. rewrite Hflag. cbn [Z.eqb]. run_c.
  unfold generate_dh_params, c_function. run_c.
  rewrite Hinit. cbn [Z.eqb]. run_c.
  rewrite Hgen. cbn [Z.eqb]. run_c.
  reflexivity.
Qed.

Lemma repeat_gtlsGlblInitLstn_done (env : environment) (n : nat) (w : world) :
  bGlblSrvrInitDone w <> 0 ->
  repeat_gtlsGlblInitLstn env n w = (repeat (Done RS_RET_OK) n, w).
Proof.
  intros Hdone. induction n as [|n IH]; [reflexivity|].
  cbn [repeat_gtlsGlblInitLstn repeat].
  rewrite (gtlsGlblInitLstn_done env w Hdone), IH. reflexivity.
Qed.

(** C10, as the code has it: when the parameter generation of the
    first call succeeds, N > 1 calls of the listener set-up all
    succeed and generate the parameters once, in the first call; each
    later call returns [RS_RET_OK] and leaves the process state,
    trace included, as the first call left it. *)
Theorem gtlsGlblInitLstn_generates_once (env : environment) (n : nat) (w : world) :
  (1 < n)%nat ->
  bGlblSrvrInitDone w = 0 ->
  gnutls_ret env gnutls_dh_params_init (clock w) = 0 ->
  gnutls_ret env (gnutls_dh_params_generate2 DH_BITS) (S (clock w)) = 0 ->
  gtlsGlblInitLstn env w = (Done RS_RET_OK, listener_ready w) /\
  gtlsGlblInitLstn env (listener_ready w) = (Done RS_RET_OK, listener_ready w) /\
  repeat_gtlsGlblInitLstn env n w = (repeat (Done RS_RET_OK) n, listener_ready w) /\
  dh_generations (trace (listener_ready w)) = S (dh_generations (trace w)).
Proof.
  intros Hn Hflag Hinit Hgen.
  pose proof (gtlsGlblInitLstn_first env w Hflag Hinit Hgen) as Hfirst.
  assert (Hready : bGlblSrvrInitDone (listener_ready w) <> 0) by (simpl; lia).
  split; [exact Hfirst|].
  split; [apply gtlsGlblInitLstn_done; exact Hready|].
  split.
  - destruct n as [|n]; [lia|].
    cbn [repeat_gtlsGlblInitLstn repeat].
    rewrite Hfirst, (repeat_gtlsGlblInitLstn_done env n _ Hready). reflexivity.
  - unfold dh_generations, listener_ready. cbn [trace tick].
    rewrite !filter_app, !length_app. simpl. lia.
Qed.

Lemma gtlsGlblInitLstn_generates_once_witness :
  gtlsGlblInitLstn quiet_env fresh_world = (Done RS_RET_OK, listener_ready fresh_world) /\
  gtlsGlblInitLstn quiet_env (listener_ready fresh_world)
  = (Done RS_RET_OK, listener_ready fresh_world) /\
  repeat_gtlsGlblInitLstn quiet_env 3 fresh_world
  = (repeat (Done RS_RET_OK) 3, listener_ready fresh_world) /\
  dh_generations (trace (listener_ready fresh_world))
  = S (dh_generations (trace fresh_world)).
Proof.
  apply (gtlsGlblInitLstn_generates_once quiet_env 3 fresh_world).
  - lia.
  - reflexivity.
  - reflexivity.
  - reflexivity.
Defined.

(** C10 as stated fails: when the generation fails, the flag stays 0
    and the next call generates again; two calls, two generations. *)
Lemma gtlsGlblInitLstn_regenerates_after_failure :
  fst (repeat_gtlsGlblInitLstn no_dh_env 2 fresh_world)
  = [Done RS_RET_GNUTLS_ERR; Done RS_RET_GNUTLS_ERR] /\
  dh_generations (trace (snd (repeat_gtlsGlblInitLstn no_dh_env 2 fresh_world))) = 2%nat /\
  bGlblSrvrInitDone (snd (repeat_gtlsGlblInitLstn no_dh_env 2 fresh_world)) = 0.
Proof. repeat split; reflexivity. Qed.

(** On a process that is set up, [LstnInit] is the transport driver's
    listener set-up and nothing else. *)
Lemma LstnInit_when_ready (env : environment) (pLstnPort pLstnIP : string)
    (iSessMax : Z) (w : world) :
  bGlblSrvrInitDone w <> 0 ->
  LstnInit env pLstnPort pLstnIP iSessMax w
  = (Done (ptcp_ret env (nsd_ptcp_LstnInit pLstnPort pLstnIP iSessMax) (clock w)),
     tick (nsd_ptcp_LstnInit pLstnPort pLstnIP iSessMax) w).
Proof.
  intros Hdone. unfold LstnInit, c_function. run_c.
  rewrite (gtlsGlblInitLstn_done env w Hdone). run_c. reflexivity.
Qed.

(** ** Tear-down on failure *)

(** C5 fails on the accepting side.  A TLS listener accepts a
    connection whose handshake fails for good: [AcceptConnReq] returns
    [RS_RET_TLS_HANDSHAKE_ERR] and hands no object to the caller, but
    the session handle that [gnutls_init] created is never given to
    [gnutls_deinit]: the destructor ends the TLS session only when
    [iMode] is 1, and [iMode] of the new object is still 0. *)
Theorem AcceptConnReq_leaks_session_handle :
  fst (AcceptConnReq refusing_env 1 tls_listener fresh_world)
  = Done RS_RET_TLS_HANDSHAKE_ERR /\
  fst (snd (AcceptConnReq refusing_env 1 tls_listener fresh_world))
  = mkAccept None None /\
  filter is_init (trace (snd (snd (AcceptConnReq refusing_env 1 tls_listener fresh_world))))
  = [gnutls_init GNUTLS_SERVER] /\
  filter is_deinit (trace (snd (snd (AcceptConnReq refusing_env 1 tls_listener fresh_world))))
  = [] /\
  trace (snd (snd (AcceptConnReq refusing_env 1 tls_listener fresh_world)))
  = [nsd_ptcp_Construct; gnutls_certificate_set_x509_key_file;
     nsd_ptcp_Destruct (Some 0%nat); nsd_ptcp_AcceptConnReq (Some 0%nat);
     gnutls_init GNUTLS_SERVER; gnutls_set_default_priority 4%nat;
     gnutls_credentials_set 4%nat; gnutls_certificate_server_set_request 4%nat;
     gnutls_dh_set_prime_bits 4%nat DH_BITS; gnutls_transport_set_ptr 4%nat 0;
     gnutls_handshake 4%nat; nsd_ptcp_Destruct (Some 3%nat)].
Proof. repeat split; reflexivity. Qed.

(** ** Connecting *)

Lemma Connect_reaches_handshake (env : environment) (family : Z) (port host : string)
    (pThis : nsd_gtls_t) (w : world) :
  iMode pThis <> 0 ->
  Connect_setup_succeeds env family port host pThis ->
  Connect env family port host (pThis, w)
  = let st := Connect_after_handshake env family port host pThis w in
    if gnutls_ret env (gnutls_handshake (S (clock w))) (7 + clock w)%nat =? 0 then
      match gtlsChkFingerprint env st with
      | (Done RS_RET_OK, st') => (Done RS_RET_OK, st')
      | (Done iRet, (pThis', w')) =>
          (Done iRet,
           if negb (bHaveSess pThis' =? 0)
           then (set_bHaveSess 0 pThis', tick (gnutls_deinit (sess pThis')) w')
           else (pThis', w'))
      | (Spinning, st') => (Spinning, st')
      end
    else
      (Done RS_RET_GNUTLS_ERR,
       (set_bHaveSess 0 (fst st), tick (gnutls_deinit (S (clock w))) (snd st))).
Proof.
  intros Hmode (Hconn & Hinit & Hprio & Htype & Hcred & Hsock).
  apply Z.eqb_neq in Hmode.
  unfold Connect, c_function. run_c.
  rewrite Hconn. run_c. rewrite Hmode. run_c.
  rewrite Hinit. cbn [Z.eqb]. run_c.
  rewrite Hprio. cbn [Z.eqb]. run_c.
  rewrite Htype. cbn [Z.eqb]. run_c.
  rewrite Hcred. cbn [Z.eqb]. run_c.
  rewrite Hsock. run_c.
  cbv zeta. unfold Connect_after_handshake, Connect_calls, tick. run_c.
  rewrite <- !app_assoc. cbn [app Nat.add].
  destruct (gnutls_ret env (gnutls_handshake (S (clock w)))
              (S (S (S (S (S (S (S (clock w)))))))) =? 0); run_c.
  - match goal with
    | |- context [gtlsChkFingerprint env ?st] =>
        destruct (gtlsChkFingerprint env st) as [[iRet|] [pThis' w']]
    end; run_c; [|reflexivity].
    destruct iRet; run_c; try reflexivity;
      destruct (bHaveSess pThis' =? 0); reflexivity.
  - cbn [Z.eqb negb]. run_c. rewrite <- app_assoc. reflexivity.
Qed.

(** Follow every path of a body: split on each test that the
    environment or the session decides. *)
Ltac split_paths :=
  repeat (run_c;
          try rewrite GenFingerprintStr_appended;
          match goal with
          | |- context [search_permitted_peers ?f ?l] =>
              destruct (search_permitted_peers f l)
          | |- context [match peer_certs ?e ?c ?t with _ => _ end] =>
              destruct (peer_certs e c t)
          | |- context [match ptcp_ret ?e ?c ?t with _ => _ end] =>
              destruct (ptcp_ret e c t)
          | |- context [if ?b then _ else _] => destruct b
          end).

(** Whatever the environment answers, the peer check makes no
    handshake call and gives no session up, and it leaves the session's
    handle fields alone. *)
Lemma gtlsChkFingerprint_calls (env : environment) (pThis : nsd_gtls_t) (w : world) :
  exists calls,
    trace (snd (snd (gtlsChkFingerprint env (pThis, w)))) = trace w ++ calls /\
    filter is_handshake calls = [] /\
    filter is_deinit calls = [] /\
    bHaveSess (fst (snd (gtlsChkFingerprint env (pThis, w)))) = bHaveSess pThis /\
    sess (fst (snd (gtlsChkFingerprint env (pThis, w)))) = sess pThis.
Proof.
  unfold gtlsChkFingerprint, c_function, gtlsChkFingerprint_body,
    gtlsChkFingerprint_finalize.
  split_paths; unfold tick; run_c; rewrite <- ?app_assoc; cbn [app];
    (eexists; split; [try reflexivity; symmetry; apply app_nil_r|]);
    repeat split; reflexivity.
Qed.

Lemma handshakes_app (a b : list call) :
  handshakes (a ++ b) = (handshakes a + handshakes b)%nat.
Proof. unfold handshakes. now rewrite filter_app, length_app. Qed.

(** C4, as the code has it: in TLS mode, once the transport is
    connected and the client session is set up, [Connect] calls
    [gnutls_handshake] exactly once.  Any answer other than 0, the
    would-block and interrupted signals [GNUTLS_E_AGAIN] and
    [GNUTLS_E_INTERRUPTED] among them, ends the call with
    [RS_RET_GNUTLS_ERR] after the session handle has been given to
    [gnutls_deinit] and [bHaveSess] reset; the answer 0 makes the
    result of [Connect] the verdict of the peer check on that session. *)
Theorem Connect_single_handshake (env : environment) (family : Z)
    (port host : string) (pThis : nsd_gtls_t) (w : world) :
  iMode pThis <> 0 ->
  Connect_setup_succeeds env family port host pThis ->
  let h := S (clock w) in
  let gnuRet := gnutls_ret env (gnutls_handshake h) (7 + clock w)%nat in
  let st := Connect_after_handshake env family port host pThis w in
  handshakes (trace (snd (snd (Connect env family port host (pThis, w)))))
  = S (handshakes (trace w)) /\
  (gnuRet <> 0 ->
   Connect env family port host (pThis, w)
   = (Done RS_RET_GNUTLS_ERR,
      (set_bHaveSess 0 (fst st), tick (gnutls_deinit h) (snd st)))) /\
  (gnuRet = 0 ->
   fst (Connect env family port host (pThis, w)) = fst (gtlsChkFingerprint env st)).
Proof.
  intros Hmode Hsetup h gnuRet st.
  rewrite (Connect_reaches_handshake env family port host pThis w Hmode Hsetup).
  cbv zeta. fold h. fold gnuRet. fold st.
  assert (Hpre : handshakes (trace (snd st)) = S (handshakes (trace w))).
  { unfold st, Connect_after_handshake. cbn [snd trace].
    rewrite handshakes_app. unfold handshakes at 2. simpl. lia. }
  destruct (gtlsChkFingerprint_calls env (fst st) (snd st))
    as (calls & Htrace & Hnone & _).
  change (fst st, snd st) with st in Htrace.
  assert (Hzero : handshakes calls = 0%nat) by (unfold handshakes; now rewrite Hnone).
  destruct (gnuRet =? 0) eqn:Hret.
  - apply Z.eqb_eq in Hret. split; [|split; [lia|]].
    + destruct (gtlsChkFingerprint env st) as [[iRet|] [pThis' w']];
        cbn [fst snd] in *.
      * assert (Hw' : handshakes (trace w') = S (handshakes (trace w)))
          by (rewrite Htrace, handshakes_app, Hpre, Hzero; lia).
        destruct iRet; cbn [fst snd]; try exact Hw';
          destruct (bHaveSess pThis' =? 0); cbn [negb snd fst trace tick];
          try exact Hw'; rewrite handshakes_app, Hw'; unfold handshakes; simpl; lia.
      * rewrite Htrace, handshakes_app, Hpre, Hzero. lia.
    + intros _.
      destruct (gtlsChkFingerprint env st) as [[iRet|] [pThis' w']];
        [destruct iRet|]; reflexivity.
  - apply Z.eqb_neq in Hret. split; [|split; [reflexivity | lia]].
    cbn [snd fst trace tick]. rewrite handshakes_app, Hpre.
    unfold handshakes; simpl; lia.
Qed.

Lemma Connect_single_handshake_witness :
  handshakes (trace (snd (snd (Connect busy_once_env 2 "514" "loghost"
                                 (tls_client, fresh_world)))))
  = S (handshakes (trace fresh_world)) /\
  (gnutls_ret busy_once_env (gnutls_handshake 1%nat) 7%nat <> 0 ->
   Connect busy_once_env 2 "514" "loghost" (tls_client, fresh_world)
   = (Done RS_RET_GNUTLS_ERR,
      (set_bHaveSess 0
         (fst (Connect_after_handshake busy_once_env 2 "514" "loghost"
                 tls_client fresh_world)),
       tick (gnutls_deinit 1%nat)
         (snd (Connect_after_handshake busy_once_env 2 "514" "loghost"
                 tls_client fresh_world))))) /\
  (gnutls_ret busy_once_env (gnutls_handshake 1%nat) 7%nat = 0 ->
   fst (Connect busy_once_env 2 "514" "loghost" (tls_client, fresh_world))
   = fst (gtlsChkFingerprint busy_once_env
            (Connect_after_handshake busy_once_env 2 "514" "loghost"
               tls_client fresh_world))).
Proof.
  apply (Connect_single_handshake busy_once_env 2 "514" "loghost"
           tls_client fresh_world).
  - simpl. lia.
  - repeat split; intros; reflexivity.
Defined.

(** C4 as stated fails: the engine answers the one handshake call of
    [Connect] with the would-block signal; [Connect] does not try
    again, although the next try would have completed, and returns
    [RS_RET_GNUTLS_ERR] after giving the session up. *)
Lemma Connect_gives_up_on_would_block :
  gnutls_ret busy_once_env (gnutls_handshake 1%nat) 7%nat = GNUTLS_E_AGAIN /\
  gnutls_ret busy_once_env (gnutls_handshake 1%nat) 8%nat = 0 /\
  fst (Connect busy_once_env 2 "514" "loghost" (tls_client, fresh_world))
  = Done RS_RET_GNUTLS_ERR /\
  handshakes (trace (snd (snd (Connect busy_once_env 2 "514" "loghost"
                                 (tls_client, fresh_world))))) = 1%nat /\
  trace (snd (snd (Connect busy_once_env 2 "514" "loghost" (tls_client, fresh_world))))
  = [nsd_ptcp_Connect (Some 0%nat) 2 "514" "loghost";
     gnutls_init GNUTLS_CLIENT;
     gnutls_set_default_priority 1%nat;
     gnutls_certificate_type_set_priority 1%nat;
     gnutls_credentials_set 1%nat;
     nsd_ptcp_GetSock (Some 0%nat);
     gnutls_transport_set_ptr 1%nat 0;
     gnutls_handshake 1%nat;
     gnutls_deinit 1%nat].
Proof. repeat split; reflexivity. Qed.

Lemma gtlsChkFingerprint_returns (env : environment) (st : nsd_gtls_t * world) :
  exists iRet, fst (gtlsChkFingerprint env st) = Done iRet.
Proof.
  unfold gtlsChkFingerprint, c_function, gtlsChkFingerprint_body,
    gtlsChkFingerprint_finalize.
  split_paths; eexists; reflexivity.
Qed.

(** A trace that grew from the one of [w] and ends with a call. *)
Ltac ends_with_deinit w :=
  match goal with
  | |- exists calls, ?L ++ [?d] = _ =>
      let mid := fresh "mid" in
      let Hmid := fresh "Hmid" in
      assert (exists mid, L = trace w ++ mid) as [mid Hmid]
        by (rewrite <- ?app_assoc; eexists; reflexivity);
      rewrite Hmid; exists mid; symmetry; apply app_assoc
  end.

(** X13: the connecting side tears down: once [gnutls_init] has created
    the handle, every failure of [Connect] ends with that
    handle given to [gnutls_deinit], as the last call made, and with
    [bHaveSess] reset. *)
Lemma Connect_failure_releases_session (env : environment) (family : Z)
    (port host : string) (pThis : nsd_gtls_t) (w : world) :
  iMode pThis <> 0 ->
  ptcp_ret env (nsd_ptcp_Connect (pTcp pThis) family port host) (clock w) = RS_RET_OK ->
  gnutls_ret env (gnutls_init GNUTLS_CLIENT) (S (clock w)) = 0 ->
  fst (Connect env family port host (pThis, w)) <> Done RS_RET_OK ->
  bHaveSess (fst (snd (Connect env family port host (pThis, w)))) = 0 /\
  exists calls,
    trace (snd (snd (Connect env family port host (pThis, w))))
    = trace w ++ calls ++ [gnutls_deinit (S (clock w))].
Proof.
  intros Hmode Hconn Hinit. apply Z.eqb_neq in Hmode.
  unfold Connect, c_function. run_c.
  rewrite Hconn. run_c. rewrite Hmode. run_c. rewrite Hinit. cbn [Z.eqb]. run_c.
  repeat (run_c;
          match goal with
          | |- context [match ptcp_ret ?e ?c ?t with _ => _ end] =>
              destruct (ptcp_ret e c t)
          | |- context [if gnutls_ret ?e ?c ?t =? 0 then _ else _] =>
              destruct (gnutls_ret e c t =? 0)
          end);
    run_c; cbn [Z.eqb negb]; run_c;
    try (intros _; split; [reflexivity|]; unfold tick; run_c; ends_with_deinit w).
  match goal with
  | |- context [gtlsChkFingerprint env (?p, ?w0)] =>
      destruct (gtlsChkFingerprint_calls env p w0) as (calls & Htr & _ & _ & Hhave & Hsess);
      destruct (gtlsChkFingerprint_returns env (p, w0)) as [iRet Hret];
      destruct (gtlsChkFingerprint env (p, w0)) as [r [pThis' w']]
  end.
  cbn [fst snd] in *. subst r. run_c.
  cbn [bHaveSess sess set_bIsInitiator set_bHaveSess set_sess] in Hhave, Hsess.
  destruct iRet; run_c; try (intros Hne; now contradiction Hne);
    rewrite Hhave; cbn [Z.eqb negb]; run_c; intros _;
    (split; [reflexivity|]);
    rewrite Hsess; unfold tick in *; run_c; cbn [trace] in Htr; rewrite Htr;
    ends_with_deinit w.
Qed.

(** X14: on no path on which [AcceptConnReq] fails is anything stored
    through [ppNew], and on none is any session handle given to
    [gnutls_deinit], whatever the environment answers: the new
    object's [iMode] is still 0 when the destructor runs. *)
Lemma AcceptConnReq_failure_never_deinits (env : environment) (fuel : nat)
    (pThis : nsd_gtls_t) (w : world) :
  fst (AcceptConnReq env fuel pThis w) <> Done RS_RET_OK ->
  filter is_deinit (trace (snd (snd (AcceptConnReq env fuel pThis w))))
  = filter is_deinit (trace w) /\
  ppNew (fst (snd (AcceptConnReq env fuel pThis w))) = None.
Proof.
  unfold AcceptConnReq, c_function, AcceptConnReq_body, AcceptConnReq_finalize,
    nsd_gtlsConstruct, nsd_gtlsInitialize, gtlsAddOurCert, gtlsInitSession,
    nsd_gtlsDestruct, gtlsEndSess.
  repeat (run_c; cbn [Z.eqb negb orb andb];
          match goal with
          | |- context [match ptcp_ret ?e ?c ?t with _ => _ end] =>
              destruct (ptcp_ret e c t)
          | |- context [gnutls_ret ?e ?c ?t =? ?k] =>
              destruct (gnutls_ret e c t =? k)
          | |- context [if iMode pThis =? 0 then _ else _] =>
              destruct (iMode pThis =? 0)
          | |- context [match stored_if_ok ?r ?t with _ => _ end] =>
              destruct (stored_if_ok r t)
          end);
    repeat progress (run_c; cbn [Z.eqb negb orb andb]);
    intros Hne; try (now contradiction Hne);
    (split; [|reflexivity]);
    unfold tick; run_c; rewrite ?filter_app; cbn [filter is_deinit];
    rewrite ?app_nil_r; reflexivity.
Qed.

(** ** Retry loops *)

Ltac run_x := repeat progress (run_c; cbn [Z.eqb Pos.eqb negb orb andb]).

Lemma ticks_trace (c : call) (n : nat) : forall w,
  trace (ticks c n w) = trace w ++ repeat c n.
Proof.
  induction n as [|n IH]; intros w; cbn [ticks repeat].
  - now rewrite app_nil_r.
  - rewrite IH. cbn [tick trace]. now rewrite <- app_assoc.
Qed.

Lemma ticks_clock (c : call) (n : nat) : forall w,
  clock (ticks c n w) = (clock w + n)%nat.
Proof.
  induction n as [|n IH]; intros w; cbn [ticks].
  - lia.
  - rewrite IH. cbn [tick clock]. lia.
Qed.

Lemma ticks_flag (c : call) (n : nat) : forall w,
  bGlblSrvrInitDone (ticks c n w) = bGlblSrvrInitDone w.
Proof.
  induction n as [|n IH]; intros w; cbn [ticks]; [reflexivity|].
  now rewrite IH.
Qed.

Lemma transient_negative (gnuRet : Z) : transient gnuRet -> gnuRet < 0.
Proof. intros [-> | ->]; reflexivity. Qed.

Lemma not_transient_test (gnuRet : Z) :
  ~ transient gnuRet ->
  negb (gnuRet =? GNUTLS_E_INTERRUPTED) && negb (gnuRet =? GNUTLS_E_AGAIN) = true.
Proof.
  intros Hnot. unfold transient in Hnot.
  destruct (gnuRet =? GNUTLS_E_INTERRUPTED) eqn:Hi.
  - apply Z.eqb_eq in Hi. tauto.
  - destruct (gnuRet =? GNUTLS_E_AGAIN) eqn:Ha; [|reflexivity].
    apply Z.eqb_eq in Ha. tauto.
Qed.

Lemma transient_test (gnuRet : Z) :
  transient gnuRet ->
  (0 <=? gnuRet) = false /\
  negb (gnuRet =? GNUTLS_E_INTERRUPTED) && negb (gnuRet =? GNUTLS_E_AGAIN) = false /\
  (gnuRet =? GNUTLS_E_INTERRUPTED) || (gnuRet =? GNUTLS_E_AGAIN) = true.
Proof. intros [-> | ->]; repeat split; reflexivity. Qed.

(** The [while(1)] loop of [Send]: [k] transient answers are followed
    by [k] further tries; the first other answer ends the loop.  What
    the loop tests is the [int] that the answer was stored in. *)
Lemma Send_loop_retries (env : environment) (pThis : nsd_gtls_t) (len : Z) (k : nat) :
  forall (fuel : nat) (w : world),
  (k < fuel)%nat ->
  (forall i, (i < k)%nat ->
     transient
       (int_of (gnutls_ret env (gnutls_record_send (sess pThis) len) (clock w + i)%nat))) ->
  ~ transient
      (int_of (gnutls_ret env (gnutls_record_send (sess pThis) len) (clock w + k)%nat)) ->
  Send_loop env fuel pThis (mkIo pThis len, w)
  = let iSent :=
      int_of (gnutls_ret env (gnutls_record_send (sess pThis) len) (clock w + k)%nat) in
    let w' := ticks (gnutls_record_send (sess pThis) len) (S k) w in
    if 0 <=? iSent
    then (Val tt, (mkIo pThis iSent, w'))
    else (Goto_finalize RS_RET_GNUTLS_ERR,
          (mkIo pThis len, tick (gnutls_perror iSent) w')).
Proof.
  induction k as [|k IH]; intros fuel w Hfuel Hbusy Hlast;
    (destruct fuel as [|fuel]; [lia|]); cbn [Send_loop]; run_c.
  - rewrite Nat.add_0_r in *. cbv zeta. cbn [ticks].
    destruct (0 <=? int_of (gnutls_ret env (gnutls_record_send (sess pThis) len)
                              (clock w)));
      run_c; [reflexivity|].
    rewrite (not_transient_test _ Hlast). run_c. reflexivity.
  - pose proof (Hbusy 0%nat ltac:(lia)) as H0. rewrite Nat.add_0_r in H0.
    destruct (transient_test _ H0) as (Hneg & Hstop & _).
    rewrite Hneg, Hstop. run_c.
    rewrite (IH fuel (tick (gnutls_record_send (sess pThis) len) w)).
    + cbv zeta. cbn [tick clock ticks]. rewrite Nat.add_succ_comm. reflexivity.
    + lia.
    + intros i Hi. cbn [tick clock]. rewrite Nat.add_succ_comm. apply Hbusy. lia.
    + cbn [tick clock]. rewrite Nat.add_succ_comm. exact Hlast.
Qed.

(** X1: in TLS mode [Send] retries for as long as the record layer
    answers with the interrupted or the would-block signal.  The
    answer of each write is stored in the [int iSent], and it is that
    [int] which is tested and handed out: after [k] answers that are
    transient signals and then one whose [int] value is a count
    [n >= 0], [Send] returns [RS_RET_OK] with [n] stored through
    [pLenBuf], having made exactly [k + 1] write calls and no other
    call.  An answer that fits an [int] is its own [int] value. *)
Theorem Send_tls_retries_until_written (env : environment) (pThis : nsd_gtls_t)
    (len : Z) (k fuel : nat) (w : world) :
  let sent (i : nat) :=
    gnutls_ret env (gnutls_record_send (sess pThis) len) (clock w + i)%nat in
  iMode pThis <> 0 ->
  bAbortConn pThis = 0 ->
  (k < fuel)%nat ->
  (forall i, (i < k)%nat -> transient (int_of (sent i))) ->
  0 <= int_of (sent k) ->
  (exists w',
     Send env fuel (mkIo pThis len, w)
     = (Done RS_RET_OK, (mkIo pThis (int_of (sent k)), w')) /\
     trace w' = trace w ++ repeat (gnutls_record_send (sess pThis) len) (S k)) /\
  (0 <= sent k < 2 ^ 31 -> int_of (sent k) = sent k).
Proof.
  intros sent Hmode Habort Hfuel Hbusy Hdone.
  split; [|intros Hfit; apply int_of_small; lia].
  exists (ticks (gnutls_record_send (sess pThis) len) (S k) w).
  split; [|apply ticks_trace].
  apply Z.eqb_neq in Hmode.
  unfold Send. run_c. rewrite Habort, Hmode. run_x.
  rewrite (Send_loop_retries env pThis len k fuel w Hfuel Hbusy).
  - cbv zeta. fold (sent k). apply Z.leb_le in Hdone. rewrite Hdone. reflexivity.
  - intros Ht. apply transient_negative in Ht. fold (sent k) in Ht. lia.
Qed.

Lemma Send_tls_retries_until_written_witness :
  (exists w',
     Send slow_env 3 (mkIo tls_session 100, fresh_world)
     = (Done RS_RET_OK, (mkIo tls_session (int_of 5), w')) /\
     trace w' = repeat (gnutls_record_send 1%nat 100) 3) /\
  (0 <= 5 < 2 ^ 31 -> int_of 5 = 5).
Proof.
  apply (Send_tls_retries_until_written slow_env tls_session 100 2 3 fresh_world).
  - simpl. lia.
  - reflexivity.
  - lia.
  - intros i Hi. right.
    destruct i as [|[|i]]; [reflexivity | reflexivity | lia].
  - vm_compute. discriminate.
Defined.

(** X2: in TLS mode an answer of the record layer whose [int] value
    is negative and is not one of the two transient signals ends
    [Send] with [RS_RET_GNUTLS_ERR]: the length behind [pLenBuf] stays
    what the caller put there, and the last call made is
    [gnutls_perror] on that [int].  Every negative answer that fits an
    [int] and is not a transient signal is of that kind. *)
Theorem Send_tls_hard_error (env : environment) (pThis : nsd_gtls_t)
    (len : Z) (k fuel : nat) (w : world) :
  let sent (i : nat) :=
    gnutls_ret env (gnutls_record_send (sess pThis) len) (clock w + i)%nat in
  iMode pThis <> 0 ->
  bAbortConn pThis = 0 ->
  (k < fuel)%nat ->
  (forall i, (i < k)%nat -> transient (int_of (sent i))) ->
  let iSent := int_of (sent k) in
  iSent < 0 ->
  ~ transient iSent ->
  (exists w',
     Send env fuel (mkIo pThis len, w) = (Done RS_RET_GNUTLS_ERR, (mkIo pThis len, w')) /\
     trace w' = trace w ++ repeat (gnutls_record_send (sess pThis) len) (S k)
                        ++ [gnutls_perror iSent]) /\
  (- 2 ^ 31 <= sent k < 0 -> iSent = sent k).
Proof.
  intros sent Hmode Habort Hfuel Hbusy iSent Hneg Hhard.
  split; [|intros Hfit; apply int_of_small; lia].
  exists (tick (gnutls_perror iSent)
            (ticks (gnutls_record_send (sess pThis) len) (S k) w)).
  split.
  - apply Z.eqb_neq in Hmode.
    unfold Send. run_c. rewrite Habort, Hmode. run_x.
    rewrite (Send_loop_retries env pThis len k fuel w Hfuel Hbusy Hhard).
    cbv zeta. fold (sent k). fold iSent.
    assert (Hlt : (0 <=? iSent) = false) by (apply Z.leb_gt; exact Hneg).
    rewrite Hlt. reflexivity.
  - cbn [tick trace]. rewrite ticks_trace, <- app_assoc. reflexivity.
Qed.

Lemma Send_tls_hard_error_witness :
  (exists w',
     Send broken_send_env 1 (mkIo tls_session 100, fresh_world)
     = (Done RS_RET_GNUTLS_ERR, (mkIo tls_session 100, w')) /\
     trace w' = [gnutls_record_send 1%nat 100; gnutls_perror (int_of (-10))]) /\
  (- 2 ^ 31 <= -10 < 0 -> int_of (-10) = -10).
Proof.
  apply (Send_tls_hard_error broken_send_env tls_session 100 0 1 fresh_world).
  - simpl. lia.
  - reflexivity.
  - lia.
  - intros i Hi. lia.
  - vm_compute. reflexivity.
  - intros [H | H]; vm_compute in H; discriminate H.
Defined.

(** Answers outside the [int] range: 2^32 - 28 is stored as -28, the
    would-block signal, and the write is tried again; -2^32 is stored
    as 0, a count, and [Send] succeeds with the length 0. *)
Example Send_answer_beyond_int :
  Send (answering_env (fun c t =>
          match c with
          | gnutls_record_send _ _ => if (t <? 1)%nat then 2 ^ 32 - 28 else - 2 ^ 32
          | _ => 0
          end))
       2 (mkIo tls_session 100, fresh_world)
  = (Done RS_RET_OK,
     (mkIo tls_session 0, ticks (gnutls_record_send 1%nat 100) 2 fresh_world)).
Proof. reflexivity. Qed.

(** The [gnutls_bye] loop: [k] transient answers, then any other
    answer, error or not, ends it. *)
Lemma gtlsEndSess_bye_retries (env : environment) (s : gnutls_session)
    (o : nsd_gtls_t) (k : nat) :
  forall (fuel : nat) (w : world),
  (k < fuel)%nat ->
  (forall i, (i < k)%nat -> transient (gnutls_ret env (gnutls_bye s) (clock w + i)%nat)) ->
  ~ transient (gnutls_ret env (gnutls_bye s) (clock w + k)%nat) ->
  gtlsEndSess_bye env fuel s (o, w) = (Val tt, (o, ticks (gnutls_bye s) (S k) w)).
Proof.
  induction k as [|k IH]; intros fuel w Hfuel Hbusy Hlast;
    (destruct fuel as [|fuel]; [lia|]); cbn [gtlsEndSess_bye]; run_c.
  - rewrite Nat.add_0_r in *. cbn [ticks].
    pose proof (not_transient_test _ Hlast) as Htest.
    destruct (gnutls_ret env (gnutls_bye s) (clock w) =? GNUTLS_E_INTERRUPTED);
      [discriminate Htest|].
    destruct (gnutls_ret env (gnutls_bye s) (clock w) =? GNUTLS_E_AGAIN);
      [discriminate Htest|].
    reflexivity.
  - pose proof (Hbusy 0%nat ltac:(lia)) as H0. rewrite Nat.add_0_r in H0.
    destruct (transient_test _ H0) as (_ & _ & Hagain).
    rewrite Hagain.
    rewrite (IH fuel (tick (gnutls_bye s) w)).
    + reflexivity.
    + lia.
    + intros i Hi. cbn [tick clock]. rewrite Nat.add_succ_comm. apply Hbusy. lia.
    + cbn [tick clock]. rewrite Nat.add_succ_comm. exact Hlast.
Qed.

(** X3: [gtlsEndSess] can always be called.  Without a session it does
    nothing.  With one it gives the handle to [gnutls_deinit] exactly
    once; on the initiating side it first says good-bye, again for as
    long as the answer is a transient signal, and whatever the final
    answer of [gnutls_bye] is, the result is [RS_RET_OK].  The object
    itself, [bHaveSess] included, is left as it was. *)
Theorem gtlsEndSess_shutdown (env : environment) (pThis : nsd_gtls_t)
    (k fuel : nat) (w : world) :
  (bHaveSess pThis = 0 ->
   gtlsEndSess env fuel (pThis, w) = (Done RS_RET_OK, (pThis, w))) /\
  (bHaveSess pThis <> 0 -> bIsInitiator pThis = 0 ->
   gtlsEndSess env fuel (pThis, w)
   = (Done RS_RET_OK, (pThis, tick (gnutls_deinit (sess pThis)) w))) /\
  (bHaveSess pThis <> 0 -> bIsInitiator pThis <> 0 ->
   (k < fuel)%nat ->
   (forall i, (i < k)%nat ->
      transient (gnutls_ret env (gnutls_bye (sess pThis)) (clock w + i)%nat)) ->
   ~ transient (gnutls_ret env (gnutls_bye (sess pThis)) (clock w + k)%nat) ->
   exists w',
     gtlsEndSess env fuel (pThis, w) = (Done RS_RET_OK, (pThis, w')) /\
     trace w' = trace w ++ repeat (gnutls_bye (sess pThis)) (S k)
                        ++ [gnutls_deinit (sess pThis)]).
Proof.
  split; [|split].
  - intros Hnone. unfold gtlsEndSess. run_c. rewrite Hnone. reflexivity.
  - intros Hhave Hresp. apply Z.eqb_neq in Hhave.
    unfold gtlsEndSess. run_c. rewrite Hhave, Hresp. reflexivity.
  - intros Hhave Hinit Hfuel Hbusy Hlast.
    apply Z.eqb_neq in Hhave, Hinit.
    exists (tick (gnutls_deinit (sess pThis)) (ticks (gnutls_bye (sess pThis)) (S k) w)).
    split.
    + unfold gtlsEndSess. run_c. rewrite Hhave, Hinit. run_x.
      rewrite (gtlsEndSess_bye_retries env (sess pThis) pThis k fuel w Hfuel Hbusy Hlast).
      reflexivity.
    + cbn [tick trace]. rewrite ticks_trace, <- app_assoc. reflexivity.
Qed.

Lemma gtlsEndSess_shutdown_witness :
  gtlsEndSess slow_env 2 (nsd_gtls_calloc, fresh_world)
  = (Done RS_RET_OK, (nsd_gtls_calloc, fresh_world)) /\
  gtlsEndSess slow_env 2 (tls_session, fresh_world)
  = (Done RS_RET_OK, (tls_session, tick (gnutls_deinit 1%nat) fresh_world)) /\
  exists w',
    gtlsEndSess slow_env 2 (set_bIsInitiator 1 tls_session, fresh_world)
    = (Done RS_RET_OK, (set_bIsInitiator 1 tls_session, w')) /\
    trace w' = [gnutls_bye 1%nat; gnutls_bye 1%nat; gnutls_deinit 1%nat].
Proof.
  split; [|split].
  - apply (proj1 (gtlsEndSess_shutdown slow_env nsd_gtls_calloc 0 2 fresh_world)).
    reflexivity.
  - apply (proj1 (proj2 (gtlsEndSess_shutdown slow_env tls_session 0 2 fresh_world))).
    + simpl. lia.
    + reflexivity.
  - apply (proj2 (proj2 (gtlsEndSess_shutdown slow_env (set_bIsInitiator 1 tls_session)
                           1 2 fresh_world))).
    + simpl. lia.
    + simpl. lia.
    + lia.
    + intros i Hi. left. destruct i as [|i]; [reflexivity | lia].
    + intros [H | H]; discriminate H.
Defined.

(** X4: the destructor answers [RS_RET_OK] whenever it returns, and
    destructs the transport object if there is one, dropping the
    transport's answer.  The three cases cover every object.  In a mode
    other than 1, or without a session, no call goes to GnuTLS: outside
    mode 1 no session handle is released even when [bHaveSess] is set.
    In mode 1 with a session the handle is given to [gnutls_deinit]
    once, before the transport object is destructed; on the initiating
    side this is preceded by the [gnutls_bye] calls, which are repeated
    while the answer is a transient signal (and the destructor does not
    return while that lasts). *)
Theorem nsd_gtlsDestruct_spec (env : environment) (pThis : nsd_gtls_t)
    (k fuel : nat) (w : world) :
  (iMode pThis <> 1 \/ bHaveSess pThis = 0 ->
   nsd_gtlsDestruct env fuel (pThis, w)
   = (Done RS_RET_OK, transport_destructed pThis w)) /\
  (iMode pThis = 1 -> bHaveSess pThis <> 0 -> bIsInitiator pThis = 0 ->
   nsd_gtlsDestruct env fuel (pThis, w)
   = (Done RS_RET_OK,
      transport_destructed pThis (tick (gnutls_deinit (sess pThis)) w))) /\
  (iMode pThis = 1 -> bHaveSess pThis <> 0 -> bIsInitiator pThis <> 0 ->
   (k < fuel)%nat ->
   (forall i, (i < k)%nat ->
      transient (gnutls_ret env (gnutls_bye (sess pThis)) (clock w + i)%nat)) ->
   ~ transient (gnutls_ret env (gnutls_bye (sess pThis)) (clock w + k)%nat) ->
   nsd_gtlsDestruct env fuel (pThis, w)
   = (Done RS_RET_OK,
      transport_destructed pThis
        (tick (gnutls_deinit (sess pThis))
           (ticks (gnutls_bye (sess pThis)) (S k) w)))).
Proof.
  unfold transport_destructed. split; [|split].
  - intros Hplain.
    unfold nsd_gtlsDestruct, gtlsEndSess. run_c.
    destruct (iMode pThis =? 1) eqn:Hmode; run_x.
    + apply Z.eqb_eq in Hmode.
      destruct Hplain as [Hplain | Hnone]; [contradiction|].
      rewrite Hnone. run_x. destruct (pTcp pThis); reflexivity.
    + destruct (pTcp pThis); reflexivity.
  - intros Hmode Hhave Hresp. apply Z.eqb_neq in Hhave.
    unfold nsd_gtlsDestruct, gtlsEndSess. run_c.
    rewrite Hmode. run_x. rewrite Hhave, Hresp. run_x.
    destruct (pTcp pThis); reflexivity.
  - intros Hmode Hhave Hinit Hfuel Hbusy Hlast.
    apply Z.eqb_neq in Hhave, Hinit.
    unfold nsd_gtlsDestruct, gtlsEndSess. run_c.
    rewrite Hmode. run_x. rewrite Hhave, Hinit. run_x.
    rewrite (gtlsEndSess_bye_retries env (sess pThis) pThis k fuel w Hfuel Hbusy Hlast).
    run_x. destruct (pTcp pThis); reflexivity.
Qed.

Lemma nsd_gtlsDestruct_spec_witness :
  nsd_gtlsDestruct slow_env 2 (set_bHaveSess 1 plain_session, fresh_world)
  = (Done RS_RET_OK,
     (set_pTcp None (set_bHaveSess 1 plain_session),
      tick (nsd_ptcp_Destruct (Some 0%nat)) fresh_world)) /\
  nsd_gtlsDestruct slow_env 2 (tls_session, fresh_world)
  = (Done RS_RET_OK, (tls_session, tick (gnutls_deinit 1%nat) fresh_world)) /\
  nsd_gtlsDestruct slow_env 2 (set_bIsInitiator 1 tls_session, fresh_world)
  = (Done RS_RET_OK,
     (set_bIsInitiator 1 tls_session,
      tick (gnutls_deinit 1%nat) (ticks (gnutls_bye 1%nat) 2 fresh_world))).
Proof.
  split; [|split].
  - apply (proj1 (nsd_gtlsDestruct_spec slow_env (set_bHaveSess 1 plain_session)
                    0 2 fresh_world)).
    left. simpl. lia.
  - apply (proj1 (proj2 (nsd_gtlsDestruct_spec slow_env tls_session 0 2 fresh_world))).
    + reflexivity.
    + simpl. lia.
    + reflexivity.
  - apply (proj2 (proj2 (nsd_gtlsDestruct_spec slow_env (set_bIsInitiator 1 tls_session)
                           1 2 fresh_world))).
    + reflexivity.
    + simpl. lia.
    + simpl. lia.
    + lia.
    + intros i Hi. left. destruct i as [|i]; [reflexivity | lia].
    + intros [H | H]; discriminate H.
Defined.

(** ** What the operations leave alone *)

(** The peer check changes nothing in the object but, at most,
    [bReportAuthErr]. *)
Lemma gtlsChkFingerprint_object (env : environment) (pThis : nsd_gtls_t) (w : world) :
  fst (snd (gtlsChkFingerprint env (pThis, w))) = pThis \/
  fst (snd (gtlsChkFingerprint env (pThis, w))) = set_bReportAuthErr 0 pThis.
Proof.
  unfold gtlsChkFingerprint, c_function, gtlsChkFingerprint_body,
    gtlsChkFingerprint_finalize.
  split_paths; first [left; reflexivity | right; reflexivity].
Qed.

Lemma Send_loop_object (env : environment) (pThis : nsd_gtls_t) (fuel : nat) :
  forall st : io_frame * world,
  io_this (fst (snd (Send_loop env fuel pThis st))) = io_this (fst st).
Proof.
  induction fuel as [|fuel IH]; intros st; [reflexivity|].
  cbn [Send_loop]. run_c.
  match goal with
  | |- context [0 <=? ?r] => destruct (0 <=? r); run_c; [reflexivity|]
  end.
  match goal with
  | |- context [if ?b then _ else _] => destruct b; run_c; [reflexivity|]
  end.
  rewrite IH. reflexivity.
Qed.

(** Follow every path of [Connect]. *)
Ltac connect_paths :=
  repeat (run_x;
          match goal with
          | |- context [gtlsChkFingerprint ?e (?p, ?w0)] =>
              let H := fresh "Hobj" in
              pose proof (gtlsChkFingerprint_object e p w0) as H;
              destruct (gtlsChkFingerprint e (p, w0)) as [[?|] [? ?]];
              cbn [fst snd] in H
          | |- context [match ptcp_ret ?e ?c ?t with _ => _ end] =>
              destruct (ptcp_ret e c t)
          | |- context [match ?r with RS_RET_OK => _ | _ => _ end] =>
              is_var r; destruct r
          | |- context [gnutls_ret ?e ?c ?t =? 0] =>
              destruct (gnutls_ret e c t =? 0)
          | |- context [iMode ?p =? 0] => destruct (iMode p =? 0)
          | |- context [bHaveSess ?p =? 0] => destruct (bHaveSess p =? 0)
          end);
  run_x.

(** X5: no operation of the driver sets or clears [bAbortConn]:
    configuring, connecting, checking the peer, sending, receiving and
    [Abort] itself all leave the flag as they found it, on every path
    and whatever the collaborators answer. *)
Theorem bAbortConn_never_written (env : environment) (pThis : nsd_gtls_t)
    (w : world) (fuel : nat) (len mode family : Z) (authmode : option string)
    (peers : permittedPeers_t) (port host : string) :
  bAbortConn (fst (snd (SetMode mode (pThis, w)))) = bAbortConn pThis /\
  bAbortConn (fst (snd (SetAuthMode authmode (pThis, w)))) = bAbortConn pThis /\
  bAbortConn (fst (snd (SetPermPeers peers (pThis, w)))) = bAbortConn pThis /\
  bAbortConn (fst (snd (Abort env (pThis, w)))) = bAbortConn pThis /\
  bAbortConn (io_this (fst (snd (Rcv env (mkIo pThis len, w))))) = bAbortConn pThis /\
  bAbortConn (io_this (fst (snd (Send env fuel (mkIo pThis len, w))))) = bAbortConn pThis /\
  bAbortConn (fst (snd (gtlsChkFingerprint env (pThis, w)))) = bAbortConn pThis /\
  bAbortConn (fst (snd (Connect env family port host (pThis, w)))) = bAbortConn pThis.
Proof.
  repeat split.
  - unfold SetMode. run_c.
    destruct (negb (mode =? 0) && negb (mode =? 1)); reflexivity.
  - unfold SetAuthMode. run_c.
    destruct authmode as [m|]; [|reflexivity].
    repeat match goal with
           | |- context [if ?b then _ else _] => destruct b
           end; reflexivity.
  - unfold SetPermPeers. run_c.
    destruct peers as [|id rest]; [reflexivity|]. run_c.
    destruct (authMode_takes_peers (authMode pThis)); reflexivity.
  - unfold Abort. run_c. destruct (iMode pThis =? 0); reflexivity.
  - unfold Rcv. run_c.
    destruct (bAbortConn pThis =? 0); run_x; [|reflexivity].
    destruct (iMode pThis =? 0); run_x.
    + match goal with
      | |- context [match ptcp_ret ?e ?c ?t with _ => _ end] =>
          destruct (ptcp_ret e c t)
      end; reflexivity.
    + match goal with
      | |- context [?r <? 0] => destruct (r <? 0)
      end; run_x; [|reflexivity].
      match goal with
      | |- context [?r =? 0] => destruct (r =? 0)
      end; reflexivity.
  - unfold Send. run_c.
    destruct (bAbortConn pThis =? 0); run_x; [|reflexivity].
    destruct (iMode pThis =? 0); run_x.
    + match goal with
      | |- context [match ptcp_ret ?e ?c ?t with _ => _ end] =>
          destruct (ptcp_ret e c t)
      end; reflexivity.
    + pose proof (Send_loop_object env pThis fuel (mkIo pThis len, w)) as Hobj.
      destruct (Send_loop env fuel pThis (mkIo pThis len, w)) as [[u|r|r|] st];
        cbn [fst snd] in Hobj; cbn [fst snd]; rewrite ?Hobj; reflexivity.
  - destruct (gtlsChkFingerprint_object env pThis w) as [-> | ->]; reflexivity.
  - unfold Connect. connect_paths;
      try reflexivity;
      match goal with
      | H : _ \/ _ |- _ => destruct H; subst; reflexivity
      end.
Qed.

(** X6: in plain tcp mode the driver is a pass-through: on an object
    that holds no TLS session, [Send], [Rcv], [Connect] and [Abort]
    make no call into GnuTLS, whatever the transport answers. *)
Theorem plain_mode_never_calls_gnutls (env : environment) (pThis : nsd_gtls_t)
    (w : world) (fuel : nat) (len family : Z) (port host : string) :
  iMode pThis = 0 ->
  bHaveSess pThis = 0 ->
  filter is_gnutls_call (trace (snd (snd (Send env fuel (mkIo pThis len, w)))))
  = filter is_gnutls_call (trace w) /\
  filter is_gnutls_call (trace (snd (snd (Rcv env (mkIo pThis len, w)))))
  = filter is_gnutls_call (trace w) /\
  filter is_gnutls_call (trace (snd (snd (Connect env family port host (pThis, w)))))
  = filter is_gnutls_call (trace w) /\
  filter is_gnutls_call (trace (snd (snd (Abort env (pThis, w)))))
  = filter is_gnutls_call (trace w).
Proof.
  intros Hmode Hnone.
  assert (Hone : forall c, is_gnutls_call c = false ->
                   filter is_gnutls_call (trace (tick c w))
                   = filter is_gnutls_call (trace w)).
  { intros c Hc. cbn [tick trace]. rewrite filter_app. cbn [filter].
    rewrite Hc. apply app_nil_r. }
  repeat split.
  - unfold Send. run_c. rewrite Hmode.
    destruct (bAbortConn pThis =? 0); run_x; [|reflexivity].
    match goal with
    | |- context [match ptcp_ret ?e ?c ?t with _ => _ end] =>
        destruct (ptcp_ret e c t)
    end; run_x; apply Hone; reflexivity.
  - unfold Rcv. run_c. rewrite Hmode.
    destruct (bAbortConn pThis =? 0); run_x; [|reflexivity].
    match goal with
    | |- context [match ptcp_ret ?e ?c ?t with _ => _ end] =>
        destruct (ptcp_ret e c t)
    end; run_x; apply Hone; reflexivity.
  - unfold Connect. run_c.
    match goal with
    | |- context [match ptcp_ret ?e ?c ?t with _ => _ end] =>
        destruct (ptcp_ret e c t)
    end; run_x; rewrite ?Hmode, ?Hnone; run_x; apply Hone; reflexivity.
  - unfold Abort. run_c. rewrite Hmode. run_x. apply Hone. reflexivity.
Qed.

Lemma plain_mode_never_calls_gnutls_witness :
  filter is_gnutls_call
    (trace (snd (snd (Send quiet_env 1 (mkIo plain_session 100, fresh_world)))))
  = filter is_gnutls_call (trace fresh_world) /\
  filter is_gnutls_call
    (trace (snd (snd (Rcv quiet_env (mkIo plain_session 100, fresh_world)))))
  = filter is_gnutls_call (trace fresh_world) /\
  filter is_gnutls_call
    (trace (snd (snd (Connect quiet_env 2 "514" "loghost" (plain_session, fresh_world)))))
  = filter is_gnutls_call (trace fresh_world) /\
  filter is_gnutls_call (trace (snd (snd (Abort quiet_env (plain_session, fresh_world)))))
  = filter is_gnutls_call (trace fresh_world).
Proof.
  apply (plain_mode_never_calls_gnutls quiet_env plain_session fresh_world 1 100 2
           "514" "loghost").
  - reflexivity.
  - reflexivity.
Defined.

(** ** More on fingerprints *)

Lemma hex_digit_upper_code (n : N) :
  (n < 16)%N ->
  n = (if (N_of_ascii (hex_digit_upper n) <=? 57)%N
       then N_of_ascii (hex_digit_upper n) - 48
       else N_of_ascii (hex_digit_upper n) - 55)%N.
Proof.
  intros Hn. destruct n as [|p]; [reflexivity|].
  do 4 (try destruct p as [p|p|]); try reflexivity; lia.
Qed.

Lemma hex_digit_upper_inj (n m : N) :
  (n < 16)%N -> (m < 16)%N -> hex_digit_upper n = hex_digit_upper m -> n = m.
Proof.
  intros Hn Hm Heq.
  rewrite (hex_digit_upper_code n Hn), (hex_digit_upper_code m Hm), Heq. reflexivity.
Qed.

Lemma snprintf_2_2X_inj (a b : byte) : snprintf_2_2X a = snprintf_2_2X b -> a = b.
Proof.
  unfold snprintf_2_2X. intros Heq. injection Heq as Hhi Hlo.
  pose proof (Byte.to_N_bounded a) as Ha. pose proof (Byte.to_N_bounded b) as Hb.
  assert (Hdiv : (Byte.to_N a / 16 = Byte.to_N b / 16)%N).
  { apply hex_digit_upper_inj; [| |exact Hhi];
      apply N.Div0.div_lt_upper_bound; lia. }
  assert (Hmod : (Byte.to_N a mod 16 = Byte.to_N b mod 16)%N).
  { apply hex_digit_upper_inj; [| |exact Hlo]; apply N.mod_lt; lia. }
  assert (HN : Byte.to_N a = Byte.to_N b).
  { rewrite (N.div_mod' (Byte.to_N a) 16), (N.div_mod' (Byte.to_N b) 16), Hdiv, Hmod.
    reflexivity. }
  pose proof (Byte.of_to_N a) as Hoa. pose proof (Byte.of_to_N b) as Hob.
  rewrite HN in Hoa. congruence.
Qed.

Lemma appended_inj (d1 : list byte) : forall (d2 : list byte) (flag : Z),
  appended flag d1 = appended flag d2 -> d1 = d2.
Proof.
  induction d1 as [|a d1 IH]; intros [|b d2] flag Heq; cbn [appended] in Heq.
  - reflexivity.
  - destruct (flag =? 0); discriminate Heq.
  - destruct (flag =? 0); discriminate Heq.
  - assert (Htail : snprintf_2_2X a = snprintf_2_2X b /\ appended 1 d1 = appended 1 d2).
    { unfold snprintf_2_2X in *.
      destruct (flag =? 0); cbn [append] in Heq; injection Heq as -> -> Hrest;
        split; [reflexivity | exact Hrest | reflexivity | exact Hrest]. }
    destruct Htail as [Hab Hrest].
    apply snprintf_2_2X_inj in Hab. apply IH in Hrest. congruence.
Qed.

(** X7: the rendering loses nothing: two digests with the same
    fingerprint string are the same bytes, so certificates with
    different digests never share a fingerprint string. *)
Theorem GenFingerprintStr_injective (d1 d2 : list byte) :
  GenFingerprintStr d1 = GenFingerprintStr d2 -> d1 = d2.
Proof.
  rewrite !GenFingerprintStr_appended. intros Heq.
  injection Heq as Heq. exact (appended_inj d1 d2 0 Heq).
Qed.

Lemma GenFingerprintStr_injective_witness :
  GenFingerprintStr [x01; xab] = GenFingerprintStr [x01; xab] /\
  [x01; xab] = [x01; xab].
Proof.
  split; [reflexivity|].
  apply (GenFingerprintStr_injective [x01; xab] [x01; xab]). reflexivity.
Defined.

(** X8: a permitted-peer entry that holds any character other than the
    digits, the capitals A to F and the colon can never be matched: when
    every entry is of that kind (fingerprints written in lower case, for
    one), the check fails with [RS_RET_INVALID_FINGERPRINT] whatever
    certificate the peer presents. *)
Theorem gtlsChkFingerprint_rejects_non_canonical (env : environment)
    (pThis : nsd_gtls_t) (w : world) (leaf : gnutls_datum) :
  authMode pThis = GTLS_AUTH_CERTFINGERPRINT ->
  peer_presents env (sess pThis) leaf ->
  (forall id, In id (pPermPeers pThis) ->
     all_chars (fun c => is_hex_upper c || is_colon c) id = false) ->
  fst (gtlsChkFingerprint env (pThis, w)) = Done RS_RET_INVALID_FINGERPRINT.
Proof.
  intros Hmode Hpeer Hodd.
  rewrite (gtlsChkFingerprint_by_search env pThis w leaf Hmode Hpeer).
  rewrite search_permitted_peers_miss; [reflexivity|].
  intros Hin. apply Hodd in Hin.
  destruct (appended_counts (x509_fingerprint env leaf) 0) as (_ & _ & Hall).
  congruence.
Qed.

Lemma gtlsChkFingerprint_rejects_non_canonical_witness :
  fst (gtlsChkFingerprint cert_env
         (set_pPermPeers ["01:ab"; "sha1:01:AB"]%string fingerprint_session, fresh_world))
  = Done RS_RET_INVALID_FINGERPRINT.
Proof.
  apply (gtlsChkFingerprint_rejects_non_canonical cert_env
           (set_pPermPeers ["01:ab"; "sha1:01:AB"]%string fingerprint_session)
           fresh_world [x30; x82]).
  - reflexivity.
  - repeat split; intros; try reflexivity. exists []. reflexivity.
  - intros id [<- | [<- | []]]; reflexivity.
Defined.

(** ** More on the peer check *)

(** X9: in x509/fingerprint mode the check fails before the permitted
    peers are looked at when there is nothing to take a fingerprint of:
    a certificate type other than X.509 gives [RS_RET_TLS_CERT_ERR]
    after the one call that asks for the type; an empty certificate list
    gives [RS_RET_TLS_NO_CERT].  In both cases the object is unchanged,
    nothing is logged and no certificate object is created. *)
Theorem gtlsChkFingerprint_without_certificate (env : environment)
    (pThis : nsd_gtls_t) (w : world) :
  authMode pThis = GTLS_AUTH_CERTFINGERPRINT ->
  let type_get := gnutls_certificate_type_get (sess pThis) in
  let get_peers := gnutls_certificate_get_peers (sess pThis) in
  (gnutls_ret env type_get (clock w) <> GNUTLS_CRT_X509 ->
   gtlsChkFingerprint env (pThis, w)
   = (Done RS_RET_TLS_CERT_ERR, (pThis, tick type_get w))) /\
  (gnutls_ret env type_get (clock w) = GNUTLS_CRT_X509 ->
   peer_certs env get_peers (S (clock w)) = [] ->
   gtlsChkFingerprint env (pThis, w)
   = (Done RS_RET_TLS_NO_CERT, (pThis, tick get_peers (tick type_get w)))).
Proof.
  intros Hmode type_get get_peers. subst type_get get_peers. split.
  - intros Htype. apply Z.eqb_neq in Htype.
    unfold gtlsChkFingerprint, gtlsChkFingerprint_body, gtlsChkFingerprint_finalize.
    run_c. rewrite Hmode. cbn [authMode_is_fingerprint]. run_x.
    rewrite Htype. run_x. reflexivity.
  - intros Htype Hnone.
    unfold gtlsChkFingerprint, gtlsChkFingerprint_body, gtlsChkFingerprint_finalize.
    run_c. rewrite Hmode. cbn [authMode_is_fingerprint]. run_x.
    rewrite Htype, Z.eqb_refl. run_x. rewrite Hnone. run_x. reflexivity.
Qed.

Lemma gtlsChkFingerprint_without_certificate_witness :
  gtlsChkFingerprint openpgp_env (fingerprint_session, fresh_world)
  = (Done RS_RET_TLS_CERT_ERR,
     (fingerprint_session, tick (gnutls_certificate_type_get 1%nat) fresh_world)) /\
  gtlsChkFingerprint no_cert_env (fingerprint_session, fresh_world)
  = (Done RS_RET_TLS_NO_CERT,
     (fingerprint_session,
      tick (gnutls_certificate_get_peers 1%nat)
        (tick (gnutls_certificate_type_get 1%nat) fresh_world))).
Proof.
  split.
  - apply (proj1 (gtlsChkFingerprint_without_certificate openpgp_env
                    fingerprint_session fresh_world ltac:(reflexivity))).
    simpl. unfold GNUTLS_CRT_X509. lia.
  - apply (proj2 (gtlsChkFingerprint_without_certificate no_cert_env
                    fingerprint_session fresh_world ltac:(reflexivity))).
    + reflexivity.
    + reflexivity.
Defined.

(** X10: the certificate object of the check is never left behind.  On
    every path, either [gnutls_x509_crt_init] is not called and neither
    is [gnutls_x509_crt_deinit]; or it is called once, at the third call
    of the check, and then [gnutls_x509_crt_deinit] is called once on
    that object if the initialisation succeeded and not at all if it
    failed. *)
Theorem gtlsChkFingerprint_releases_certificate (env : environment)
    (pThis : nsd_gtls_t) (w : world) :
  let tr := trace (snd (snd (gtlsChkFingerprint env (pThis, w)))) in
  let t := S (S (clock w)) in
  (filter is_crt_init tr = filter is_crt_init (trace w) /\
   filter is_crt_deinit tr = filter is_crt_deinit (trace w)) \/
  (filter is_crt_init tr = filter is_crt_init (trace w) ++ [gnutls_x509_crt_init] /\
   ((gnutls_ret env gnutls_x509_crt_init t <> 0 /\
     filter is_crt_deinit tr = filter is_crt_deinit (trace w)) \/
    (gnutls_ret env gnutls_x509_crt_init t = 0 /\
     filter is_crt_deinit tr
     = filter is_crt_deinit (trace w) ++ [gnutls_x509_crt_deinit t]))).
Proof.
  cbv zeta.
  unfold gtlsChkFingerprint, gtlsChkFingerprint_body, gtlsChkFingerprint_finalize.
  repeat (run_x;
          try rewrite GenFingerprintStr_appended;
          match goal with
          | |- context [search_permitted_peers ?f ?l] =>
              destruct (search_permitted_peers f l)
          | |- context [match peer_certs ?e ?c ?t with _ => _ end] =>
              destruct (peer_certs e c t)
          | |- context [if gnutls_ret ?e gnutls_x509_crt_init ?t =? 0 then _ else _] =>
              destruct (gnutls_ret e gnutls_x509_crt_init t =? 0) eqn:Hinit
          | |- context [if ?b then _ else _] => destruct b
          end);
    run_x; unfold tick; run_x;
    rewrite ?filter_app; cbn [filter is_crt_init is_crt_deinit app];
    rewrite ?app_nil_r;
    first [ left; split; reflexivity
          | right; split; [reflexivity|];
            first [ left; split; [apply Z.eqb_neq; exact Hinit | reflexivity]
                  | right; split; [apply Z.eqb_eq; exact Hinit | reflexivity] ] ].
Qed.

(** What the check does when the peer's fingerprint is not among the
    permitted ones. *)
Lemma gtlsChkFingerprint_mismatch_run (env : environment) (pThis : nsd_gtls_t)
    (w : world) (leaf : gnutls_datum) :
  authMode pThis = GTLS_AUTH_CERTFINGERPRINT ->
  peer_presents env (sess pThis) leaf ->
  ~ In (appended 0 (x509_fingerprint env leaf)) (pPermPeers pThis) ->
  exists w',
    gtlsChkFingerprint env (pThis, w)
    = (Done RS_RET_INVALID_FINGERPRINT,
       (if bReportAuthErr pThis =? 1 then set_bReportAuthErr 0 pThis else pThis, w')) /\
    List.length (filter is_log (trace w'))
    = (List.length (filter is_log (trace w))
       + (if (bReportAuthErr pThis =? 1)%Z then 1 else 0))%nat.
Proof.
  intros Hmode (Htype & Hpeers & Hinit & Himport & Hdigest) Hnot.
  unfold gtlsChkFingerprint, c_function, gtlsChkFingerprint_body,
    gtlsChkFingerprint_finalize.
  run_c. rewrite Hmode. cbn [authMode_is_fingerprint negb]. run_c.
  rewrite Htype, Z.eqb_refl. cbn [negb]. run_c.
  destruct (Hpeers (S (clock w))) as [rest ->]. run_c.
  rewrite Hinit. cbn [Z.eqb]. run_c.
  rewrite Himport. cbn [Z.eqb]. run_c.
  rewrite Hdigest. cbn [Z.eqb]. run_c.
  rewrite GenFingerprintStr_appended. run_c.
  rewrite (search_permitted_peers_miss _ _ Hnot). run_x.
  destruct (bReportAuthErr pThis =? 1); run_x;
    (eexists; split; [reflexivity|]);
    unfold tick; run_x; rewrite !filter_app, !length_app; simpl; lia.
Qed.

(** X11: a peer that is not permitted is reported once.  With
    [bReportAuthErr] at 1, a failed check logs one error and clears the
    flag; the check repeated on the object it leaves fails in the same
    way and logs nothing. *)
Theorem gtlsChkFingerprint_reports_once (env : environment) (pThis : nsd_gtls_t)
    (w : world) (leaf : gnutls_datum) :
  authMode pThis = GTLS_AUTH_CERTFINGERPRINT ->
  peer_presents env (sess pThis) leaf ->
  ~ In (appended 0 (x509_fingerprint env leaf)) (pPermPeers pThis) ->
  bReportAuthErr pThis = 1 ->
  let first := gtlsChkFingerprint env (pThis, w) in
  let second := gtlsChkFingerprint env (snd first) in
  fst first = Done RS_RET_INVALID_FINGERPRINT /\
  fst second = Done RS_RET_INVALID_FINGERPRINT /\
  fst (snd first) = set_bReportAuthErr 0 pThis /\
  fst (snd second) = set_bReportAuthErr 0 pThis /\
  List.length (filter is_log (trace (snd (snd first))))
  = S (List.length (filter is_log (trace w))) /\
  List.length (filter is_log (trace (snd (snd second))))
  = List.length (filter is_log (trace (snd (snd first)))).
Proof.
  intros Hmode Hpeer Hnot Hflag. cbv zeta.
  destruct (gtlsChkFingerprint_mismatch_run env pThis w leaf Hmode Hpeer Hnot)
    as (w1 & Hrun1 & Hlog1).
  rewrite Hflag in Hrun1, Hlog1. cbn [Z.eqb Pos.eqb] in Hrun1, Hlog1.
  rewrite Hrun1. cbn [fst snd].
  destruct (gtlsChkFingerprint_mismatch_run env (set_bReportAuthErr 0 pThis) w1 leaf
              Hmode Hpeer Hnot) as (w2 & Hrun2 & Hlog2).
  cbn [bReportAuthErr set_bReportAuthErr Z.eqb] in Hrun2, Hlog2.
  rewrite Hrun2. cbn [fst snd].
  repeat split; lia.
Qed.

Lemma gtlsChkFingerprint_reports_once_witness :
  fst (gtlsChkFingerprint cert_env
         (set_bReportAuthErr 1 (set_pPermPeers ["01:ab"]%string fingerprint_session),
          fresh_world))
  = Done RS_RET_INVALID_FINGERPRINT /\
  List.length
    (filter is_log
       (trace (snd (snd (gtlsChkFingerprint cert_env
                           (snd (gtlsChkFingerprint cert_env
                                   (set_bReportAuthErr 1
                                      (set_pPermPeers ["01:ab"]%string
                                         fingerprint_session),
                                    fresh_world))))))))
  = 1%nat.
Proof.
  pose proof (gtlsChkFingerprint_reports_once cert_env
                (set_bReportAuthErr 1 (set_pPermPeers ["01:ab"]%string fingerprint_session))
                fresh_world [x30; x82]) as H.
  cbv zeta in H.
  destruct H as (H1 & _ & _ & _ & H5 & H6).
  - reflexivity.
  - repeat split; intros; try reflexivity. exists []. reflexivity.
  - intros [H | []]. discriminate H.
  - reflexivity.
  - split; [exact H1|]. rewrite H6, H5. reflexivity.
Defined.

(** ** Connecting with a fingerprint *)

(** X12: a client in TLS and x509/fingerprint mode, with the transport
    connected, the session set up and the handshake completed: when the
    server's rendered fingerprint is among the permitted peers,
    [Connect] returns [RS_RET_OK] and the object keeps the new session
    (initiator side, handle never given to [gnutls_deinit]); when it is
    not, [Connect] returns [RS_RET_INVALID_FINGERPRINT], the handle is
    given to [gnutls_deinit] once and [bHaveSess] is reset. *)
Theorem Connect_fingerprint_verdict (env : environment) (family : Z)
    (port host : string) (pThis : nsd_gtls_t) (w : world) (leaf : gnutls_datum)
    (F : string) :
  iMode pThis <> 0 ->
  Connect_setup_succeeds env family port host pThis ->
  gnutls_ret env (gnutls_handshake (S (clock w))) (7 + clock w)%nat = 0 ->
  authMode pThis = GTLS_AUTH_CERTFINGERPRINT ->
  peer_presents env (S (clock w)) leaf ->
  GenFingerprintStr (x509_fingerprint env leaf) = (Done RS_RET_OK, Some F) ->
  let out := Connect env family port host (pThis, w) in
  (In F (pPermPeers pThis) ->
   fst out = Done RS_RET_OK /\
   bHaveSess (fst (snd out)) = 1 /\
   bIsInitiator (fst (snd out)) = 1 /\
   sess (fst (snd out)) = S (clock w) /\
   filter is_deinit (trace (snd (snd out))) = filter is_deinit (trace w)) /\
  (~ In F (pPermPeers pThis) ->
   fst out = Done RS_RET_INVALID_FINGERPRINT /\
   bHaveSess (fst (snd out)) = 0 /\
   filter is_deinit (trace (snd (snd out)))
   = filter is_deinit (trace w) ++ [gnutls_deinit (S (clock w))]).
Proof.
  intros Hmode Hsetup Hshake Hauth Hpeer HF. cbv zeta.
  rewrite GenFingerprintStr_appended in HF. injection HF as HF. subst F.
  rewrite (Connect_reaches_handshake env family port host pThis w Hmode Hsetup).
  cbv zeta. rewrite Hshake. cbn [Z.eqb].
  set (st := Connect_after_handshake env family port host pThis w).
  assert (Hst : st = (fst st, snd st)) by reflexivity.
  pose proof (gtlsChkFingerprint_by_search env (fst st) (snd st) leaf Hauth Hpeer)
    as Hsearch.
  change (pPermPeers (fst st)) with (pPermPeers pThis) in Hsearch.
  destruct (gtlsChkFingerprint_calls env (fst st) (snd st))
    as (calls & Htrace & _ & Hkeep & Hhave & Hsess).
  pose proof (gtlsChkFingerprint_object env (fst st) (snd st)) as Hobj.
  rewrite <- Hst in Hsearch, Htrace, Hhave, Hsess, Hobj. clear Hst.
  assert (Hpre : filter is_deinit (trace (snd st)) = filter is_deinit (trace w)).
  { unfold st, Connect_after_handshake. cbn [snd trace].
    rewrite filter_app. cbn. apply app_nil_r. }
  assert (Hinit : bIsInitiator (fst (snd (gtlsChkFingerprint env st))) = 1)
    by (destruct Hobj as [-> | ->]; reflexivity).
  destruct (gtlsChkFingerprint env st) as [r [pThis' w']]. cbn [fst snd] in *.
  change (bHaveSess (fst st)) with 1 in Hhave.
  change (sess (fst st)) with (S (clock w)) in Hsess.
  split.
  - intros Hin.
    destruct (search_permitted_peers_hit _ _ Hin) as (b & a & _ & _ & Hhit).
    rewrite Hhit in Hsearch. cbn in Hsearch. subst r. cbn [fst snd].
    repeat split; try assumption.
    rewrite Htrace, filter_app, Hkeep, Hpre. apply app_nil_r.
  - intros Hnot.
    rewrite (search_permitted_peers_miss _ _ Hnot) in Hsearch. cbn in Hsearch.
    subst r. rewrite Hhave. cbn [Z.eqb negb fst snd].
    repeat split.
    cbn [tick trace]. rewrite Hsess, filter_app, Htrace, filter_app, Hkeep, Hpre.
    cbn. rewrite app_nil_r. reflexivity.
Qed.

Lemma Connect_fingerprint_verdict_witness :
  fst (Connect cert_env 2 "514" "loghost"
         (set_pPermPeers ["01:AB"]%string
            (set_authMode GTLS_AUTH_CERTFINGERPRINT tls_client), fresh_world))
  = Done RS_RET_OK /\
  fst (Connect cert_env 2 "514" "loghost"
         (set_pPermPeers ["01:AC"]%string
            (set_authMode GTLS_AUTH_CERTFINGERPRINT tls_client), fresh_world))
  = Done RS_RET_INVALID_FINGERPRINT.
Proof.
  split.
  - apply (proj1 (Connect_fingerprint_verdict cert_env 2 "514" "loghost"
                    (set_pPermPeers ["01:AB"]%string
                       (set_authMode GTLS_AUTH_CERTFINGERPRINT tls_client))
                    fresh_world [x30; x82] "01:AB"
                    ltac:(simpl; lia)
                    ltac:(repeat split; intros; reflexivity)
                    ltac:(reflexivity) ltac:(reflexivity)
                    ltac:(repeat split; intros; try reflexivity; exists []; reflexivity)
                    ltac:(reflexivity))).
    simpl. left. reflexivity.
  - apply (proj2 (Connect_fingerprint_verdict cert_env 2 "514" "loghost"
                    (set_pPermPeers ["01:AC"]%string
                       (set_authMode GTLS_AUTH_CERTFINGERPRINT tls_client))
                    fresh_world [x30; x82] "01:AB"
                    ltac:(simpl; lia)
                    ltac:(repeat split; intros; reflexivity)
                    ltac:(reflexivity) ltac:(reflexivity)
                    ltac:(repeat split; intros; try reflexivity; exists []; reflexivity)
                    ltac:(reflexivity))).
    simpl. intros [H | []]. discriminate H.
Defined.

Lemma Connect_failure_releases_session_witness :
  bHaveSess (fst (snd (Connect busy_once_env 2 "514" "loghost"
                         (tls_client, fresh_world)))) = 0 /\
  exists calls,
    trace (snd (snd (Connect busy_once_env 2 "514" "loghost" (tls_client, fresh_world))))
    = trace fresh_world ++ calls ++ [gnutls_deinit 1%nat].
Proof.
  apply (Connect_failure_releases_session busy_once_env 2 "514" "loghost"
           tls_client fresh_world).
  - simpl. lia.
  - reflexivity.
  - reflexivity.
  - vm_compute. intros H. discriminate H.
Defined.

Lemma AcceptConnReq_failure_never_deinits_witness :
  filter is_deinit
    (trace (snd (snd (AcceptConnReq refusing_env 1 tls_listener fresh_world))))
  = filter is_deinit (trace fresh_world) /\
  ppNew (fst (snd (AcceptConnReq refusing_env 1 tls_listener fresh_world))) = None.
Proof.
  apply (AcceptConnReq_failure_never_deinits refusing_env 1 tls_listener fresh_world).
  vm_compute. intros H. discriminate H.
Defined.

(** ** Accepting *)

(** X15: a listener in TLS mode whose single handshake attempt
    completes, or cannot complete yet: [AcceptConnReq] returns
    [RS_RET_OK] and hands out a new object in TLS mode, on the
    responding side, that holds the new session and carries the
    listener's [authMode] and permitted peers; [rtryCall] records
    whether the handshake must be tried again. *)
Theorem AcceptConnReq_tls_session (env : environment) (fuel : nat)
    (pThis : nsd_gtls_t) (w : world) :
  iMode pThis <> 0 ->
  Accept_setup_succeeds env pThis ->
  let gnuRet := gnutls_ret env (gnutls_handshake (4 + clock w)%nat) (10 + clock w)%nat in
  gnuRet = 0 \/ transient gnuRet ->
  exists o w',
    AcceptConnReq env fuel pThis w = (Done RS_RET_OK, (mkAccept (Some o) (Some o), w')) /\
    iMode o = 1 /\
    bIsInitiator o = 0 /\
    bHaveSess o = 1 /\
    sess o = (4 + clock w)%nat /\
    pTcp o = Some (3 + clock w)%nat /\
    authMode o = authMode pThis /\
    pPermPeers o = pPermPeers pThis /\
    bAbortConn o = 0 /\
    rtryCall o = (if gnuRet =? 0 then gtlsRtry_None else gtlsRtry_handshake).
Proof.
  intros Hmode (Hcert & Hdestruct & Haccept & Hprio & Hcred). cbv zeta.
  cbn [Nat.add].
  remember (gnutls_ret env (gnutls_handshake (S (S (S (S (clock w))))))
              (S (S (S (S (S (S (S (S (S (S (clock w)))))))))))) as gnuRet eqn:Hanswer.
  intros Hshake. apply Z.eqb_neq in Hmode.
  unfold AcceptConnReq, AcceptConnReq_body, AcceptConnReq_finalize,
    nsd_gtlsConstruct, nsd_gtlsInitialize,
    gtlsAddOurCert, gtlsInitSession.
  run_x. rewrite Hcert. run_x.
  rewrite Hdestruct. run_x. rewrite Haccept. run_x. rewrite Hmode. run_x.
  rewrite Hprio. run_x. rewrite Hcred. run_x.
  rewrite <- Hanswer.
  destruct Hshake as [-> | Hbusy].
  - run_x. do 2 eexists. split; [reflexivity|]. repeat split.
  - destruct (transient_test _ Hbusy) as (Hneg & _ & _).
    assert (Hnz : (gnuRet =? 0) = false) by (apply Z.eqb_neq; apply Z.leb_gt in Hneg; lia).
    assert (Hagain : (gnuRet =? GNUTLS_E_AGAIN) || (gnuRet =? GNUTLS_E_INTERRUPTED) = true).
    { destruct Hbusy as [-> | ->]; reflexivity. }
    rewrite Hagain, Hnz. run_x.
    do 2 eexists. split; [reflexivity|]. repeat split.
Qed.

Lemma AcceptConnReq_tls_session_witness :
  exists o w',
    AcceptConnReq busy_once_env 1 listener_fingerprint fresh_world
    = (Done RS_RET_OK, (mkAccept (Some o) (Some o), w')) /\
    iMode o = 1 /\
    bIsInitiator o = 0 /\
    bHaveSess o = 1 /\
    sess o = 4%nat /\
    pTcp o = Some 3%nat /\
    authMode o = GTLS_AUTH_CERTFINGERPRINT /\
    pPermPeers o = ["01:AB"%string] /\
    bAbortConn o = 0 /\
    rtryCall o = gtlsRtry_None.
Proof.
  apply (AcceptConnReq_tls_session busy_once_env 1 listener_fingerprint fresh_world).
  - simpl. lia.
  - repeat split; intros; reflexivity.
  - left. reflexivity.
Defined.

(** X16: a listener in plain tcp mode: [AcceptConnReq] hands out a new
    object in plain tcp mode around the accepted transport object.  No
    TLS session is created, and the listener's authentication mode and
    permitted peers are not carried over: the new object has the
    constructor's. *)
Theorem AcceptConnReq_plain_session (env : environment) (fuel : nat)
    (pThis : nsd_gtls_t) (w : world) :
  iMode pThis = 0 ->
  (forall t, gnutls_ret env gnutls_certificate_set_x509_key_file t = 0) ->
  (forall o t, ptcp_ret env (nsd_ptcp_Destruct o) t = RS_RET_OK) ->
  (forall t, ptcp_ret env (nsd_ptcp_AcceptConnReq (pTcp pThis)) t = RS_RET_OK) ->
  exists o w',
    AcceptConnReq env fuel pThis w = (Done RS_RET_OK, (mkAccept (Some o) (Some o), w')) /\
    o = set_pTcp (Some (3 + clock w)%nat) (set_bReportAuthErr 1 nsd_gtls_calloc) /\
    filter is_init (trace w') = filter is_init (trace w).
Proof.
  intros Hmode Hcert Hdestruct Haccept.
  unfold AcceptConnReq, AcceptConnReq_body, AcceptConnReq_finalize,
    nsd_gtlsConstruct, nsd_gtlsInitialize,
    gtlsAddOurCert.
  run_x. rewrite Hcert. run_x.
  rewrite Hdestruct. run_x. rewrite Haccept. run_x. rewrite Hmode. run_x.
  do 2 eexists. split; [reflexivity|]. split; [reflexivity|].
  unfold tick. run_x. rewrite !filter_app. cbn. rewrite !app_nil_r. reflexivity.
Qed.

Lemma AcceptConnReq_plain_session_witness :
  exists o w',
    AcceptConnReq quiet_env 1 (set_authMode GTLS_AUTH_CERTFINGERPRINT plain_session)
      fresh_world
    = (Done RS_RET_OK, (mkAccept (Some o) (Some o), w')) /\
    o = set_pTcp (Some 3%nat) (set_bReportAuthErr 1 nsd_gtls_calloc) /\
    filter is_init (trace w') = filter is_init (trace fresh_world).
Proof.
  apply (AcceptConnReq_plain_session quiet_env 1
           (set_authMode GTLS_AUTH_CERTFINGERPRINT plain_session) fresh_world).
  - reflexivity.
  - intros; reflexivity.
  - intros; reflexivity.
  - intros; reflexivity.
Defined.

(** X17: [AcceptConnReq] never looks at the peer's certificate: on no
    path, whatever the listener's authentication mode and whatever the
    environment answers, does it ask for the certificate type or the
    certificate list, or create a certificate object. *)
Theorem AcceptConnReq_never_checks_peer (env : environment) (fuel : nat)
    (pThis : nsd_gtls_t) (w : world) :
  filter is_cert_lookup (trace (snd (snd (AcceptConnReq env fuel pThis w))))
  = filter is_cert_lookup (trace w).
Proof.
  unfold AcceptConnReq, c_function, AcceptConnReq_body, AcceptConnReq_finalize,
    nsd_gtlsConstruct, nsd_gtlsInitialize, gtlsAddOurCert, gtlsInitSession,
    nsd_gtlsDestruct, gtlsEndSess.
  repeat (run_c; cbn [Z.eqb negb orb andb];
          match goal with
          | |- context [match ptcp_ret ?e ?c ?t with _ => _ end] =>
              destruct (ptcp_ret e c t)
          | |- context [gnutls_ret ?e ?c ?t =? ?k] =>
              destruct (gnutls_ret e c t =? k)
          | |- context [if iMode pThis =? 0 then _ else _] =>
              destruct (iMode pThis =? 0)
          | |- context [match stored_if_ok ?r ?t with _ => _ end] =>
              destruct (stored_if_ok r t)
          end);
    repeat progress (run_c; cbn [Z.eqb negb orb andb]);
    unfold tick; run_c; rewrite ?filter_app; cbn [filter is_cert_lookup];
    rewrite ?app_nil_r; reflexivity.
Qed.

(** ** Listening and class initialisation *)

(** X18: [LstnInit] reaches the transport driver only with the
    Diffie-Hellman parameters in place.  When their generation fails,
    the result is [RS_RET_GNUTLS_ERR], the transport's listener set-up
    is not called, the parameters are not installed and
    [bGlblSrvrInitDone] stays 0; when it succeeds, the result of
    [LstnInit] is the result of the transport's listener set-up,
    whatever that is, and the flag is 1. *)
Theorem LstnInit_needs_dh_params (env : environment) (pLstnPort pLstnIP : string)
    (iSessMax : Z) (w : world) :
  bGlblSrvrInitDone w = 0 ->
  let init := gnutls_ret env gnutls_dh_params_init (clock w) in
  let gen := gnutls_ret env (gnutls_dh_params_generate2 DH_BITS) (S (clock w)) in
  let out := LstnInit env pLstnPort pLstnIP iSessMax w in
  (init <> 0 \/ gen <> 0 ->
   fst out = Done RS_RET_GNUTLS_ERR /\
   bGlblSrvrInitDone (snd out) = 0 /\
   filter is_transport_listen (trace (snd out)) = filter is_transport_listen (trace w) /\
   filter is_dh_install (trace (snd out)) = filter is_dh_install (trace w)) /\
  (init = 0 -> gen = 0 ->
   out = (Done (ptcp_ret env (nsd_ptcp_LstnInit pLstnPort pLstnIP iSessMax)
                  (3 + clock w)%nat),
          tick (nsd_ptcp_LstnInit pLstnPort pLstnIP iSessMax) (listener_ready w))).
Proof.
  intros Hflag. cbv zeta. split.
  - intros Hfail.
    unfold LstnInit, gtlsGlblInitLstn, generate_dh_params. run_x.
    rewrite Hflag. run_x.
    destruct (gnutls_ret env gnutls_dh_params_init (clock w) =? 0) eqn:Hinit; run_x.
    + destruct (gnutls_ret env (gnutls_dh_params_generate2 DH_BITS) (S (clock w)) =? 0)
        eqn:Hgen; run_x.
      * apply Z.eqb_eq in Hinit, Hgen. destruct Hfail; contradiction.
      * rewrite Hflag. unfold tick. run_x. rewrite !filter_app. cbn.
        rewrite !app_nil_r. repeat split.
    + rewrite Hflag. unfold tick. run_x. rewrite !filter_app. cbn.
      rewrite !app_nil_r. repeat split.
  - intros Hinit Hgen. unfold LstnInit. run_x.
    rewrite (gtlsGlblInitLstn_first env w Hflag Hinit Hgen). run_x.
    reflexivity.
Qed.

Lemma LstnInit_needs_dh_params_witness :
  fst (LstnInit no_dh_env "514" "0.0.0.0" 200 fresh_world) = Done RS_RET_GNUTLS_ERR /\
  bGlblSrvrInitDone (snd (LstnInit no_dh_env "514" "0.0.0.0" 200 fresh_world)) = 0 /\
  filter is_transport_listen (trace (snd (LstnInit no_dh_env "514" "0.0.0.0" 200 fresh_world)))
  = filter is_transport_listen (trace fresh_world) /\
  filter is_dh_install (trace (snd (LstnInit no_dh_env "514" "0.0.0.0" 200 fresh_world)))
  = filter is_dh_install (trace fresh_world).
Proof.
  apply (proj1 (LstnInit_needs_dh_params no_dh_env "514" "0.0.0.0" 200 fresh_world
                  ltac:(reflexivity))).
  right. simpl. lia.
Defined.

(** X19: class initialisation succeeds exactly when
    [gnutls_global_init] and the allocation of the credentials answer 0
    and the loading of the trust file does not answer below 0: a
    positive answer of the trust file call, the number of certificates
    read, is a success.  Every failure is [RS_RET_GNUTLS_ERR], and when
    [gnutls_global_init] fails nothing is allocated or loaded. *)
Theorem gtlsGlblInit_spec (answer : glbl_call -> nat -> Z) (w : glbl_world) :
  let t := glbl_clock w in
  (fst (gtlsGlblInit answer w) = Done RS_RET_OK <->
   answer gnutls_global_init (1 + t)%nat = 0 /\
   answer gnutls_certificate_allocate_credentials (2 + t)%nat = 0 /\
   0 <= answer gnutls_certificate_set_x509_trust_file (4 + t)%nat) /\
  (fst (gtlsGlblInit answer w) = Done RS_RET_OK \/
   fst (gtlsGlblInit answer w) = Done RS_RET_GNUTLS_ERR) /\
  (answer gnutls_global_init (1 + t)%nat <> 0 ->
   glbl_trace (snd (gtlsGlblInit answer w))
   = glbl_trace w ++ [gcry_control_SET_THREAD_CBS; gnutls_global_init]).
Proof.
  cbv zeta. cbn [Nat.add].
  unfold gtlsGlblInit, glbl_extern. run_x. cbn [glbl_clock glbl_trace].
  destruct (answer gnutls_global_init (S (glbl_clock w)) =? 0) eqn:Hinit; run_x;
    cbn [glbl_clock glbl_trace];
    [apply Z.eqb_eq in Hinit | apply Z.eqb_neq in Hinit].
  - destruct (answer gnutls_certificate_allocate_credentials (S (S (glbl_clock w))) =? 0)
      eqn:Halloc; run_x; cbn [glbl_clock glbl_trace];
      [apply Z.eqb_eq in Halloc | apply Z.eqb_neq in Halloc].
    + destruct (answer gnutls_certificate_set_x509_trust_file
                  (S (S (S (S (glbl_clock w))))) <? 0) eqn:Htrust; run_x;
        [apply Z.ltb_lt in Htrust | apply Z.ltb_ge in Htrust].
      * split; [split; [discriminate | lia]|]. split; [now right | contradiction].
      * split; [split; [intros _; repeat split; assumption | reflexivity]|].
        split; [now left | contradiction].
    + split; [split; [discriminate | intros (_ & H & _); contradiction]|].
      split; [now right | contradiction].
  - split; [split; [discriminate | intros (H & _); contradiction]|].
    split; [now right|]. intros _. rewrite <- app_assoc. reflexivity.
Qed.

Lemma gtlsGlblInit_spec_witness :
  fst (gtlsGlblInit trusting (mkGlbl 0 [])) = Done RS_RET_OK /\
  fst (gtlsGlblInit no_trust_file (mkGlbl 0 [])) = Done RS_RET_GNUTLS_ERR.
Proof.
  split.
  - apply (proj2 (proj1 (gtlsGlblInit_spec trusting (mkGlbl 0 [])))).
    simpl. repeat split; lia.
  - destruct (proj1 (proj2 (gtlsGlblInit_spec no_trust_file (mkGlbl 0 []))))
      as [Hok | Herr]; [|exact Herr].
    apply (proj1 (proj1 (gtlsGlblInit_spec no_trust_file (mkGlbl 0 [])))) in Hok.
    simpl in Hok. lia.
Defined.

(** ** Construction and configuration *)

(** X20: the result of the object's initializer is the result of
    adding the own certificate, and nothing else.  The answer of the
    transport driver's constructor is stored in [iRet] and overwritten
    by the [CHKiRet] that follows, so a failure to build the transport
    object is reported by nobody: the initializer answers [RS_RET_OK]
    when the certificate could be added, and [RS_RET_GNUTLS_ERR] when
    it could not, with or without a transport object.  On both paths
    the two calls are made and the object is set to report its first
    authentication error; nothing else in it changes. *)
Theorem nsd_gtlsInitialize_result (env : environment) (pThis : nsd_gtls_t) (w : world) :
  let built := ptcp_ret env nsd_ptcp_Construct (clock w) in
  let cert := gnutls_ret env gnutls_certificate_set_x509_key_file (S (clock w)) in
  nsd_gtlsInitialize env (pThis, w)
  = (if cert =? 0 then Done RS_RET_OK else Done RS_RET_GNUTLS_ERR,
     (set_bReportAuthErr 1 (set_pTcp (stored_if_ok built (clock w)) pThis),
      tick gnutls_certificate_set_x509_key_file (tick nsd_ptcp_Construct w))).
Proof.
  cbv zeta. unfold nsd_gtlsInitialize, gtlsAddOurCert. run_x.
  destruct (gnutls_ret env gnutls_certificate_set_x509_key_file (S (clock w)) =? 0);
    reflexivity.
Qed.

(** The initializer succeeds although the transport driver could not
    build its object. *)
Example nsd_gtlsInitialize_without_transport :
  fst (nsd_gtlsInitialize no_transport_env (nsd_gtls_calloc, fresh_world))
  = Done RS_RET_OK /\
  pTcp (fst (snd (nsd_gtlsInitialize no_transport_env (nsd_gtls_calloc, fresh_world))))
  = None.
Proof. split; reflexivity. Qed.

(** X21: [SetAuthMode] reads the mode name without regard to case:
    a name that is x509/name, x509/fingerprint or anon once folded to
    lower case selects that mode; any other name is refused with
    [RS_RET_VALUE_NOT_SUPPORTED], logged, and leaves the object as it
    was.  In no case are the stored permitted peers touched: a list
    stored under one mode is still there under the next. *)
Theorem SetAuthMode_spec (mode : option string) (pThis : nsd_gtls_t) (w : world) :
  pPermPeers (fst (snd (SetAuthMode mode (pThis, w)))) = pPermPeers pThis /\
  (forall m, mode = Some m -> strlower m = "x509/name"%string ->
     SetAuthMode mode (pThis, w)
     = (Done RS_RET_OK, (set_authMode GTLS_AUTH_CERTNAME pThis, w))) /\
  (forall m, mode = Some m -> strlower m = "x509/fingerprint"%string ->
     SetAuthMode mode (pThis, w)
     = (Done RS_RET_OK, (set_authMode GTLS_AUTH_CERTFINGERPRINT pThis, w))) /\
  (forall m, mode = Some m -> strlower m = "anon"%string ->
     SetAuthMode mode (pThis, w)
     = (Done RS_RET_OK, (set_authMode GTLS_AUTH_CERTANON pThis, w))) /\
  (forall m, mode = Some m ->
     strlower m <> "x509/name"%string ->
     strlower m <> "x509/fingerprint"%string ->
     strlower m <> "anon"%string ->
     SetAuthMode mode (pThis, w)
     = (Done RS_RET_VALUE_NOT_SUPPORTED,
        (pThis,
         tick (errmsg_LogError
                 "error: authentication mode '%s' not supported by gtls netstream driver"
                 (StrArg m)) w))).
Proof.
  assert (Htest : forall m k, (strcasecmp m k =? 0) = String.eqb (strlower m) (strlower k)).
  { intros m k. unfold strcasecmp. destruct (String.eqb (strlower m) (strlower k));
      reflexivity. }
  split; [|split; [|split; [|split]]].
  - unfold SetAuthMode. run_c. destruct mode as [m|]; [|reflexivity].
    repeat match goal with
           | |- context [if ?b then _ else _] => destruct b
           end; reflexivity.
  - intros m -> Hm. unfold SetAuthMode. run_c.
    rewrite !Htest, Hm. reflexivity.
  - intros m -> Hm. unfold SetAuthMode. run_c.
    rewrite !Htest, Hm. reflexivity.
  - intros m -> Hm. unfold SetAuthMode. run_c.
    rewrite !Htest, Hm. reflexivity.
  - intros m -> Hname Hfp Hanon.
    assert (Hn : (strcasecmp m "x509/name" =? 0) = false)
      by (rewrite Htest; apply String.eqb_neq; exact Hname).
    assert (Hf : (strcasecmp m "x509/fingerprint" =? 0) = false)
      by (rewrite Htest; apply String.eqb_neq; exact Hfp).
    assert (Ha : (strcasecmp m "anon" =? 0) = false)
      by (rewrite Htest; apply String.eqb_neq; exact Hanon).
    unfold SetAuthMode. run_c. rewrite Hn, Hf, Ha. reflexivity.
Qed.

Lemma SetAuthMode_spec_witness :
  SetAuthMode (Some "X509/FingerPrint"%string) (tls_session, fresh_world)
  = (Done RS_RET_OK, (set_authMode GTLS_AUTH_CERTFINGERPRINT tls_session, fresh_world)) /\
  SetAuthMode (Some "x509/certvalid"%string) (tls_session, fresh_world)
  = (Done RS_RET_VALUE_NOT_SUPPORTED,
     (tls_session,
      tick (errmsg_LogError
              "error: authentication mode '%s' not supported by gtls netstream driver"
              (StrArg "x509/certvalid")) fresh_world)).
Proof.
  split.
  - apply (proj1 (proj2 (proj2 (SetAuthMode_spec (Some "X509/FingerPrint"%string)
                                  tls_session fresh_world)))
             "X509/FingerPrint"%string).
    + reflexivity.
    + reflexivity.
  - apply (proj2 (proj2 (proj2 (proj2 (SetAuthMode_spec (Some "x509/certvalid"%string)
                                         tls_session fresh_world))))
             "x509/certvalid"%string).
    + reflexivity.
    + intros H; discriminate H.
    + intros H; discriminate H.
    + intros H; discriminate H.
Defined.

(** X22: the life of an accepted TLS session is balanced: the object
    that [AcceptConnReq] hands out on success, when given to the
    destructor, has its session handle passed to [gnutls_deinit]
    exactly once, and the destructor answers [RS_RET_OK]. *)
Theorem accepted_session_is_released (env : environment) (fuel : nat)
    (pThis : nsd_gtls_t) (w : world) :
  iMode pThis <> 0 ->
  Accept_setup_succeeds env pThis ->
  let gnuRet := gnutls_ret env (gnutls_handshake (4 + clock w)%nat) (10 + clock w)%nat in
  gnuRet = 0 \/ transient gnuRet ->
  let accepted := AcceptConnReq env fuel pThis w in
  exists o,
    ppNew (fst (snd accepted)) = Some o /\
    fst (nsd_gtlsDestruct env fuel (o, snd (snd accepted))) = Done RS_RET_OK /\
    filter is_deinit
      (trace (snd (snd (nsd_gtlsDestruct env fuel (o, snd (snd accepted))))))
    = filter is_deinit (trace w) ++ [gnutls_deinit (4 + clock w)%nat].
Proof.
  intros Hmode (Hcert & Hdestruct & Haccept & Hprio & Hcred). cbv zeta.
  cbn [Nat.add].
  remember (gnutls_ret env (gnutls_handshake (S (S (S (S (clock w))))))
              (S (S (S (S (S (S (S (S (S (S (clock w)))))))))))) as gnuRet eqn:Hanswer.
  intros Hshake. apply Z.eqb_neq in Hmode.
  unfold AcceptConnReq, AcceptConnReq_body, AcceptConnReq_finalize,
    nsd_gtlsConstruct, nsd_gtlsInitialize,
    gtlsAddOurCert, gtlsInitSession.
  run_x. rewrite Hcert. run_x.
  rewrite Hdestruct. run_x. rewrite Haccept. run_x. rewrite Hmode. run_x.
  rewrite Hprio. run_x. rewrite Hcred. run_x.
  rewrite <- Hanswer.
  assert (Hend : forall o w0,
            iMode o = 1 -> bHaveSess o = 1 -> bIsInitiator o = 0 ->
            pTcp o = Some (S (S (S (clock w)))) ->
            fst (nsd_gtlsDestruct env fuel (o, w0)) = Done RS_RET_OK /\
            filter is_deinit (trace (snd (snd (nsd_gtlsDestruct env fuel (o, w0)))))
            = filter is_deinit (trace w0) ++ [gnutls_deinit (sess o)]).
  { intros o w0 Hm Hh Hi Ht.
    unfold nsd_gtlsDestruct, gtlsEndSess. run_x.
    rewrite Hm. run_x. rewrite Hh, Hi. run_x. rewrite Ht. run_x.
    split; [reflexivity|].
    unfold tick. run_x. rewrite !filter_app. cbn. now rewrite app_nil_r. }
  destruct Hshake as [-> | Hbusy].
  - change (0 =? GNUTLS_E_AGAIN) with false.
    change (0 =? GNUTLS_E_INTERRUPTED) with false.
    run_x. eexists. split; [reflexivity|].
    match goal with
    | |- context [nsd_gtlsDestruct env fuel (?o, ?w0)] =>
        destruct (Hend o w0) as [Hok Htr]; try reflexivity
    end.
    split; [exact Hok|]. rewrite Htr. f_equal.
    unfold tick. run_x. rewrite <- !app_assoc. cbn [app].
    rewrite filter_app. cbn. apply app_nil_r.
  - assert (Hagain : (gnuRet =? GNUTLS_E_AGAIN) || (gnuRet =? GNUTLS_E_INTERRUPTED) = true).
    { destruct Hbusy as [-> | ->]; reflexivity. }
    rewrite Hagain. run_x. eexists. split; [reflexivity|].
    match goal with
    | |- context [nsd_gtlsDestruct env fuel (?o, ?w0)] =>
        destruct (Hend o w0) as [Hok Htr]; try reflexivity
    end.
    split; [exact Hok|]. rewrite Htr. f_equal.
    unfold tick. run_x. rewrite <- !app_assoc. cbn [app].
    rewrite filter_app. cbn. apply app_nil_r.
Qed.

Lemma accepted_session_is_released_witness :
  exists o,
    ppNew (fst (snd (AcceptConnReq busy_once_env 1 listener_fingerprint fresh_world)))
    = Some o /\
    fst (nsd_gtlsDestruct busy_once_env 1
           (o, snd (snd (AcceptConnReq busy_once_env 1 listener_fingerprint fresh_world))))
    = Done RS_RET_OK /\
    filter is_deinit
      (trace (snd (snd (nsd_gtlsDestruct busy_once_env 1
                          (o, snd (snd (AcceptConnReq busy_once_env 1
                                          listener_fingerprint fresh_world)))))))
    = filter is_deinit (trace fresh_world) ++ [gnutls_deinit 4%nat].
Proof.
  apply (accepted_session_is_released busy_once_env 1 listener_fingerprint fresh_world).
  - simpl. lia.
  - repeat split; intros; reflexivity.
  - left. reflexivity.
Defined.
